(** * Verification of the file-upload session workflow of qinglong-bot

    Shallow embedding of
    - [src/unnamed/part_001] (session manager with the cron extractor),
    - [src/src/util/file_processor.ts] (the workflow handlers),
    - [handleCommand] of [src/src/handler/telegram_bot_client.ts].

    Strings are Rocq [string]s (one [ascii] per byte), text is in UTF-8.  The session table
    [sessions : Map<number, FileUploadSession>] is a [gmap Z session]; the
    Node.js timer queue is a [gmap nat timer] of pending timers. *)

From Stdlib Require Import String Ascii ZArith List Bool Lia.
From stdpp Require Import base gmap strings list.
Import ListNotations.
Open Scope string_scope.
Set Warnings "-register-all".


(* ================================================================= *)
(** ** String built-ins used by the source *)
(* ================================================================= *)

Module Str.

(** ASCII white space, the characters of JavaScript's [\s] and of
    [String.prototype.trim] that fit in one byte. *)
Definition is_ws (c : ascii) : bool :=
  let n := nat_of_ascii c in
  (n =? 32)%nat || ((9 <=? n)%nat && (n <=? 13)%nat).

Fixpoint trim_start (s : string) : string :=
  match s with
  | EmptyString => EmptyString
  | String c r => if is_ws c then trim_start r else s
  end.

Fixpoint trim_end (s : string) : string :=
  match s with
  | EmptyString => EmptyString
  | String c r =>
      match trim_end r with
      | EmptyString => if is_ws c then EmptyString else String c EmptyString
      | r' => String c r'
      end
  end.

(** [s.trim()] on a text of ASCII characters, such as the regular
    expression match of [extractCronFromContent]; [js_trim] below is the
    general case. *)
Definition trim (s : string) : string := trim_end (trim_start s).

(** The white space of [String.prototype.trim] above ASCII, as UTF-8
    byte sequences: U+00A0 in two bytes; U+1680, U+2000-U+200A, U+2028,
    U+2029, U+202F, U+205F, U+3000 and U+FEFF in three. *)
Definition ws2 (a b : ascii) : bool :=
  (nat_of_ascii a =? 194)%nat && (nat_of_ascii b =? 160)%nat.

Definition ws3 (a b c : ascii) : bool :=
  let x := nat_of_ascii a in let y := nat_of_ascii b in let z := nat_of_ascii c in
  ((x =? 225)%nat && (y =? 154)%nat && (z =? 128)%nat)
  || ((x =? 226)%nat && (y =? 128)%nat &&
      (((128 <=? z)%nat && (z <=? 138)%nat) || (z =? 168)%nat || (z =? 169)%nat
       || (z =? 175)%nat))
  || ((x =? 226)%nat && (y =? 129)%nat && (z =? 159)%nat)
  || ((x =? 227)%nat && (y =? 128)%nat && (z =? 128)%nat)
  || ((x =? 239)%nat && (y =? 187)%nat && (z =? 191)%nat).

(** Drops the leading white space, read through [w2] and [w3]: the
    encodings of the white space code points in reading order. *)
Fixpoint strip_ws (w2 : ascii -> ascii -> bool) (w3 : ascii -> ascii -> ascii -> bool)
    (s : string) : string :=
  match s with
  | EmptyString => EmptyString
  | String a r =>
      if is_ws a then strip_ws w2 w3 r else
      match r with
      | EmptyString => s
      | String b r1 =>
          if w2 a b then strip_ws w2 w3 r1 else
          match r1 with
          | EmptyString => s
          | String c r2 => if w3 a b c then strip_ws w2 w3 r2 else s
          end
      end
  end.

Fixpoint rev_app (s acc : string) : string :=
  match s with
  | EmptyString => acc
  | String c r => rev_app r (String c acc)
  end.

Definition rev_str (s : string) : string := rev_app s EmptyString.

(** [s.trim()] on a UTF-8 text: the code points of [String.prototype.trim]
    (WhiteSpace and LineTerminator) removed at both ends; at the end the
    bytes are read backwards. *)
Definition js_trim (s : string) : string :=
  rev_str (strip_ws (fun a b => ws2 b a) (fun a b c => ws3 c b a)
                    (rev_str (strip_ws ws2 ws3 s))).

Definition starts_ws (s : string) : bool :=
  match s with String c _ => is_ws c | EmptyString => false end.

(** [s.split(/\s+/)]: every maximal run of white space separates two
    pieces; leading or trailing white space gives an empty piece. *)
Fixpoint split_ws (s : string) : list string :=
  match s with
  | EmptyString => [EmptyString]
  | String c r =>
      let rest := split_ws r in
      if is_ws c then (if starts_ws r then rest else EmptyString :: rest)
      else match rest with
           | h :: t => String c h :: t
           | [] => [String c EmptyString]
           end
  end.

(** [s.split(sep)] for a one-character separator. *)
Fixpoint split_on (sep : ascii) (s : string) : list string :=
  match s with
  | EmptyString => [EmptyString]
  | String c r =>
      let rest := split_on sep r in
      if Ascii.eqb c sep then EmptyString :: rest
      else match rest with
           | h :: t => String c h :: t
           | [] => [String c EmptyString]
           end
  end.

(** [parts.join(' ')] *)
Definition join_sp (parts : list string) : string := String.concat " " parts.

(** [s.startsWith(p)] *)
Definition startsWith (s p : string) : bool := String.prefix p s.

(** [s.endsWith(p)] for a one-character [p] *)
Fixpoint last_char (s : string) : option ascii :=
  match s with
  | EmptyString => None
  | String c EmptyString => Some c
  | String _ r => last_char r
  end.

Definition endsWith_char (s : string) (c : ascii) : bool :=
  match last_char s with Some d => Ascii.eqb d c | None => false end.

(** [prepend t l]: [t] glued in front of the first piece. *)
Definition prepend (t : string) (l : list string) : list string :=
  match l with h :: r => (t ++ h) :: r | [] => [t] end.

(** Whether [c] occurs in [s]. *)
Fixpoint has_char (c : ascii) (s : string) : bool :=
  match s with
  | EmptyString => false
  | String d r => Ascii.eqb d c || has_char c r
  end.

End Str.

(* ================================================================= *)
(** ** The Cron Extractor: [extractCronFromContent] (part_001, l. 20-50) *)
(* ================================================================= *)

Module Cron.

(** The character class [[0-9*/,-]]. *)
Definition is_cron_char (c : ascii) : bool :=
  let n := nat_of_ascii c in
  ((48 <=? n)%nat && (n <=? 57)%nat)
  || Ascii.eqb c "*" || Ascii.eqb c "/" || Ascii.eqb c "," || Ascii.eqb c "-".

(** Greedy [[0-9*/,-]*]: the longest prefix of class characters and the
    rest of the input. *)
Fixpoint cron_run (s : string) : string * string :=
  match s with
  | EmptyString => (EmptyString, EmptyString)
  | String c r =>
      if is_cron_char c then
        let (t, r') := cron_run r in (String c t, r')
      else (EmptyString, s)
  end.

(** One iteration of the group [([0-9*/,-]{1,} )].  The inner quantifier is
    greedy; backtracking it cannot help, since a shorter run is followed by
    a class character and not by the literal space, so the group has at
    most one way to match. Returns the matched text and the rest. *)
Definition cron_group (s : string) : option (string * string) :=
  match cron_run s with
  | (String c t, String sp r) =>
      if Ascii.eqb sp " " then Some (String c t ++ " ", r) else None
  | _ => None
  end.

(** The final [([0-9*/,-]){1,}]: greedy, nothing follows it in the
    pattern, so it takes the longest non-empty run. *)
Definition cron_final (s : string) : option string :=
  match cron_run s with
  | (String c t, _) => Some (String c t)
  | _ => None
  end.

(** [(group){min,max} final] with JavaScript's greedy backtracking:
    try one more iteration first; when the rest of the pattern then fails
    and the minimum is reached, match the rest at the current position.
    [max_more] / [min_more] count the iterations still allowed / needed. *)
Fixpoint cron_reps (max_more min_more : nat) (s : string) : option string :=
  match max_more with
  | O => cron_final s
  | S m =>
      let more :=
        match cron_group s with
        | Some (g, r) =>
            match cron_reps m (pred min_more) r with
            | Some x => Some (g ++ x)
            | None => None
            end
        | None => None
        end in
      match more with
      | Some x => Some x
      | None => if (min_more =? 0)%nat then cron_final s else None
      end
  end.

(** Anchored match of [/([0-9*/,-]{1,} ){4,5}([0-9*/,-]){1,}/]. *)
Definition cron_match_at (s : string) : option string := cron_reps 5 4 s.

(** [content.match(cronRegex)]: the match found at the leftmost start
    position; [match[0]] is the matched text. *)
Fixpoint cron_search (s : string) : option string :=
  match cron_match_at s with
  | Some m => Some m
  | None =>
      match s with
      | EmptyString => None
      | String _ r => cron_search r
      end
  end.

(** [extractCronFromContent(content)]; [None] is [null]. *)
Definition extractCronFromContent (content : string) : option string :=
  match cron_search content with
  | Some m =>
      let cronExpression := Str.trim m in
      let parts := Str.split_ws cronExpression in
      if (5 <=? length parts)%nat then
        Some (if (length parts =? 6)%nat
              then Str.join_sp (tl parts)
              else cronExpression)
      else None
  | None => None
  end.

(** A field of a cron expression: a non-empty run of class characters. *)
Fixpoint all_cron (s : string) : bool :=
  match s with
  | EmptyString => true
  | String c r => is_cron_char c && all_cron r
  end.

Definition cron_token (f : string) : bool :=
  negb (String.eqb f EmptyString) && all_cron f.

End Cron.

(* ================================================================= *)
(** ** JavaScript values, as produced by [JSON.parse] *)
(* ================================================================= *)

Inductive jval : Type :=
| JUndef
| JNull
| JBool (b : bool)
| JNum (z : Z)
| JStr (s : string)
| JArr (xs : list jval)
| JObj (kvs : list (string * jval)).

(** JavaScript truthiness ([!v] is [negb (truthy v)]); numbers are
    modelled as integers, so [NaN] is left out. *)
Definition truthy (v : jval) : bool :=
  match v with
  | JUndef | JNull => false
  | JBool b => b
  | JNum z => negb (Z.eqb z 0)
  | JStr s => negb (String.eqb s EmptyString)
  | JArr _ | JObj _ => true
  end.

Fixpoint assoc_lookup (k : string) (kvs : list (string * jval)) : jval :=
  match kvs with
  | [] => JUndef
  | (k', v) :: r => if String.eqb k k' then v else assoc_lookup k r
  end.

(* ================================================================= *)
(** ** Data model: [FileUploadSession] and the timer queue *)
(* ================================================================= *)

Inductive stage : Type :=
| uploaded          (* 'uploaded' *)
| create_task       (* 'create_task' *)
| modify_params     (* 'modify_params' *)
| confirm_params.   (* 'confirm_params' *)

Definition stage_eqb (a b : stage) : bool :=
  match a, b with
  | uploaded, uploaded | create_task, create_task
  | modify_params, modify_params | confirm_params, confirm_params => true
  | _, _ => false
  end.

Record params : Type := mkParams {
  name : string;
  command : string;
  schedule : string
}.

(** A timer handle ([NodeJS.Timeout]) is the number of a pending timer. *)
Record session : Type := mkSession {
  fileName : string;
  fileContent : string;
  stage_of : stage;
  defaultParams : option params;
  modifiedParams : option jval;
  timeoutId : option nat
}.

(** A pending [setTimeout]: the user whose session it expires, the delay,
    and the notice its callback replies with. *)
Record timer : Type := mkTimer {
  t_user : Z;
  t_ms : Z;
  t_notice : string
}.

Record world : Type := mkWorld {
  sessions : gmap Z session;
  timers : gmap nat timer;
  next_timer : nat
}.

Definition set_sessions (m : gmap Z session) (w : world) : world :=
  mkWorld m (timers w) (next_timer w).

(** [clearTimeout(t)]: the timer no longer fires; unknown handles are
    ignored. *)
Definition clearTimeout (t : nat) (w : world) : world :=
  mkWorld (sessions w) (delete t (timers w)) (next_timer w).

(** [setTimeout(cb, ms)]: a fresh handle. *)
Definition setTimeout (tm : timer) (w : world) : nat * world :=
  (next_timer w, mkWorld (sessions w) (<[next_timer w := tm]> (timers w))
                         (S (next_timer w))).

(** Fields of a [Partial<FileUploadSession>] used by the handlers;
    [Object.assign(session, updates)] applies them in order. *)
(** One property of the [updates : Partial<FileUploadSession>] of
    [updateSession]; [Object.assign] writes the properties in order.  An
    optional property given as [undefined] is [None]
    ([UNoModifiedParams] for [modifiedParams]). *)
Inductive upd : Type :=
| UFileName (f : string)
| UFileContent (c : string)
| UStage (s : stage)
| UDefaultParams (p : option params)
| UModifiedParams (p : jval)
| UNoModifiedParams
| UTimeoutId (t : option nat).

Definition apply_upd (s : session) (u : upd) : session :=
  match u with
  | UFileName f => mkSession f (fileContent s) (stage_of s) (defaultParams s)
                             (modifiedParams s) (timeoutId s)
  | UFileContent c => mkSession (fileName s) c (stage_of s) (defaultParams s)
                                (modifiedParams s) (timeoutId s)
  | UStage st => mkSession (fileName s) (fileContent s) st (defaultParams s)
                           (modifiedParams s) (timeoutId s)
  | UDefaultParams p => mkSession (fileName s) (fileContent s) (stage_of s) p
                                  (modifiedParams s) (timeoutId s)
  | UModifiedParams p => mkSession (fileName s) (fileContent s) (stage_of s)
                           (defaultParams s) (Some p) (timeoutId s)
  | UNoModifiedParams => mkSession (fileName s) (fileContent s) (stage_of s)
                           (defaultParams s) None (timeoutId s)
  | UTimeoutId t => mkSession (fileName s) (fileContent s) (stage_of s)
                              (defaultParams s) (modifiedParams s) t
  end.

(** The property name an update writes. *)
Definition upd_key (u : upd) : string :=
  match u with
  | UFileName _ => "fileName"
  | UFileContent _ => "fileContent"
  | UStage _ => "stage"
  | UDefaultParams _ => "defaultParams"
  | UModifiedParams _ | UNoModifiedParams => "modifiedParams"
  | UTimeoutId _ => "timeoutId"
  end.

Definition set_timeoutId (t : nat) (s : session) : session :=
  mkSession (fileName s) (fileContent s) (stage_of s) (defaultParams s)
            (modifiedParams s) (Some t).

(* ================================================================= *)
(** ** Session manager (part_001, l. 52-119) *)
(* ================================================================= *)

Module SessionManager.

(** [cronFromContent || '0 0 * * *'] *)
Definition or_default (o : option string) (d : string) : string :=
  match o with
  | Some (String c r) => String c r
  | _ => d
  end.

(** [fileName.split('.')[0]] *)
Definition first_segment (f : string) : string :=
  match Str.split_on "." f with
  | h :: _ => h
  | [] => EmptyString
  end.

(** The session object built by [createSession]. *)
Definition new_session (fileName fileContent : string) : session :=
  let cronFromContent := Cron.extractCronFromContent fileContent in
  let defaultSchedule := or_default cronFromContent "0 0 * * *" in
  mkSession fileName fileContent uploaded
    (Some (mkParams (first_segment fileName) ("task " ++ fileName)
                    defaultSchedule))
    None None.

(** [createSession(userId, fileName, fileContent)]: [sessions.set]. *)
Definition createSession (userId : Z) (fileName fileContent : string)
    (w : world) : session * world :=
  let s := new_session fileName fileContent in
  (s, set_sessions (<[userId := s]> (sessions w)) w).

Definition getSession (userId : Z) (w : world) : option session :=
  sessions w !! userId.

Definition updateSession (userId : Z) (updates : list upd) (w : world) : world :=
  match sessions w !! userId with
  | Some s => set_sessions (<[userId := fold_left apply_upd updates s]> (sessions w)) w
  | None => w
  end.

Definition deleteSession (userId : Z) (w : world) : world :=
  let w1 := match sessions w !! userId with
            | Some s => match timeoutId s with
                        | Some t => clearTimeout t w
                        | None => w
                        end
            | None => w
            end in
  set_sessions (delete userId (sessions w1)) w1.

(** [setSessionTimeout(userId, timeoutMs, callback)]; the callback of the
    only caller ([handleModifyParamsYes]) replies with [notice]. *)
Definition setSessionTimeout (userId timeoutMs : Z) (notice : string)
    (w : world) : world :=
  match sessions w !! userId with
  | None => w
  | Some s =>
      let w1 := match timeoutId s with
                | Some t => clearTimeout t w
                | None => w
                end in
      let (t, w2) := setTimeout (mkTimer userId timeoutMs notice) w1 in
      set_sessions (<[userId := set_timeoutId t s]> (sessions w2)) w2
  end.

End SessionManager.

(* ================================================================= *)
(** ** Effects of a handler: replies, backend calls, exceptions *)
(* ================================================================= *)

(** Observable effects, in order.  [Reply msg buttons] is [context.reply]
    with the [callback_data] of its inline buttons; [ProcessCommand] is the
    fall-through of [handleCommand] to [processCommand] and [sendReply]. *)
Inductive event : Type :=
| Reply (msg : string) (buttons : list string)
| AnswerCb (msg : option string)
| UploadFile (file content : string)
| CreateCronJob (n c s : jval)
| ProcessCommand (text : string).

(** The runtime and the external collaborators: [JSON.parse] ([None] when
    it throws), [JSON.stringify(v, null, 2)], [String(v)], and the
    Qinglong API calls [uploadFile] / [createCronJob] ([Some e] when the
    promise rejects; [e] is what [getErrorMessage] gives for the error). *)
Record env : Type := mkEnv {
  json_parse : string -> option jval;
  json_stringify : jval -> string;
  js_String : jval -> string;
  upload_result : string -> string -> option string;
  cron_result : jval -> jval -> jval -> option string
}.

Inductive res (A : Type) : Type :=
| Ok (a : A)
| Throw (e : string).
Arguments Ok {A} a.
Arguments Throw {A} e.

(** Reader of [env], state of [world], output of [event]s, exceptions. *)
Definition M (A : Type) : Type :=
  env -> world -> list event -> res A * world * list event.

#[global] Instance M_ret : MRet M := fun A a _ w l => (Ok a, w, l).
#[global] Instance M_bind : MBind M := fun A B k m e w l =>
  match m e w l with
  | (Ok a, w', l') => k a e w' l'
  | (Throw x, w', l') => (Throw x, w', l')
  end.

Definition run {A} (m : M A) (e : env) (w : world) : res A * world * list event :=
  m e w [].

(** [try { m } catch (error) { h(getErrorMessage(error)) }]: effects of
    [m] before the throw are kept. *)
Definition try_catch {A} (m : M A) (h : string -> M A) : M A := fun e w l =>
  match m e w l with
  | (Throw x, w', l') => h x e w' l'
  | r => r
  end.

Definition throw {A} (x : string) : M A := fun _ w l => (Throw x, w, l).
Definition emit (ev : event) : M unit := fun _ w l => (Ok tt, w, app l [ev]).
Definition gets {A} (f : world -> A) : M A := fun _ w l => (Ok (f w), w, l).
Definition modify (f : world -> world) : M unit := fun _ w l => (Ok tt, f w, l).
Definition asks {A} (f : env -> A) : M A := fun e w l => (Ok (f e), w, l).

Definition reply (msg : string) : M unit := emit (Reply msg []).
Definition reply_kb (msg : string) (buttons : list string) : M unit :=
  emit (Reply msg buttons).

(** [await uploadFile(fileName, content)] *)
Definition uploadFile (f c : string) : M unit :=
  emit (UploadFile f c) ;;
  r ← asks (fun e => upload_result e f c) ;
  match r with None => mret tt | Some x => throw x end.

(** [await createCronJob(name, command, schedule)] *)
Definition createCronJob (n c s : jval) : M unit :=
  emit (CreateCronJob n c s) ;;
  r ← asks (fun e => cron_result e n c s) ;
  match r with None => mret tt | Some x => throw x end.

Definition JSON_parse (t : string) : M jval :=
  r ← asks (fun e => json_parse e t) ;
  match r with Some v => mret v | None => throw "SyntaxError" end.

(** Property access [v.k]: a [TypeError] on [undefined] and [null]. *)
Definition get_prop (v : jval) (k : string) : M jval :=
  match v with
  | JUndef | JNull => throw "TypeError"
  | JObj kvs => mret (assoc_lookup k kvs)
  | _ => mret JUndef
  end.

(** [!params.name || !params.command || !params.schedule], short-circuit. *)
Definition missing_field (p : jval) : M bool :=
  n ← get_prop p "name" ;
  if negb (truthy n) then mret true else
  c ← get_prop p "command" ;
  if negb (truthy c) then mret true else
  s ← get_prop p "schedule" ;
  mret (negb (truthy s)).

(* ================================================================= *)
(** ** Message texts *)
(* ================================================================= *)

Definition nl : string := String (ascii_of_nat 10) EmptyString.
Definition lines (xs : list string) : string := String.concat nl xs.

Definition escapeHtml_char (c : ascii) : string :=
  if Ascii.eqb c "&" then "&amp;"
  else if Ascii.eqb c "<" then "&lt;"
  else if Ascii.eqb c ">" then "&gt;"
  else if Ascii.eqb c (ascii_of_nat 34) then "&quot;"
  else if Ascii.eqb c "'" then "&#39;"
  else String c EmptyString.

Fixpoint escapeHtml (s : string) : string :=
  match s with
  | EmptyString => EmptyString
  | String c r => escapeHtml_char c ++ escapeHtml r
  end.

(** Every [&] of a text starts one of the five entities of [escapeHtml]. *)
Fixpoint amp_starts_entity (s : string) : bool :=
  match s with
  | EmptyString => true
  | String c r =>
      (if Ascii.eqb c "&"
       then existsb (fun ent => String.prefix ent r) ["amp;"; "lt;"; "gt;"; "quot;"; "#39;"]
       else true)
      && amp_starts_entity r
  end.

Definition params_json (p : params) : jval :=
  JObj [("name", JStr (name p)); ("command", JStr (command p));
        ("schedule", JStr (schedule p))].

Definition opt_params_json (p : option params) : jval :=
  match p with Some p => params_json p | None => JUndef end.

Definition code_block (j : string) : string :=
  "<pre><code>" ++ escapeHtml j ++ "</code></pre>".

Definition msg_param_error : string :=
  "❌ 参数格式错误，必须包含 name、command 和 schedule 字段".
Definition msg_no_modified : string := "❌ 修改后的参数不存在，请重新操作".
Definition msg_uploading : string := "正在上传脚本到青龙面板...".
Definition msg_creating : string := "正在创建定时任务...".
Definition msg_expired : string := "会话已过期，请重新上传文件".
Definition msg_timeout : string := "⏰ 参数修改超时，会话已结束。请重新上传文件。".

(* ================================================================= *)
(** ** Workflow handlers ([src/src/util/file_processor.ts]) *)
(* ================================================================= *)

Module FileProcessor.
Import SessionManager.

Definition getSession_m (uid : Z) : M (option session) := gets (getSession uid).
Definition updateSession_m (uid : Z) (us : list upd) : M unit :=
  modify (updateSession uid us).
Definition deleteSession_m (uid : Z) : M unit := modify (deleteSession uid).
Definition setSessionTimeout_m (uid ms : Z) (notice : string) : M unit :=
  modify (setSessionTimeout uid ms notice).

Definition stringify (v : jval) : M string := asks (fun e => json_stringify e v).
Definition str (v : jval) : M string := asks (fun e => js_String e v).

(** The handlers receive the session object read by
    [handleCallbackQuery]; none of them reads a field that it changed
    itself before, so reading the value is the same as reading the shared
    object. [uid] is [context.from!.id!]. *)

(** [handleCreateTask] (l. 165-184) *)
Definition handleCreateTask (uid : Z) (s : session) : M unit :=
  updateSession_m uid [UStage create_task] ;;
  j ← stringify (opt_params_json (defaultParams s)) ;
  reply_kb (lines ["是否修改默认参数？"; ""; "默认参数如下："; ""; code_block j])
           ["modify_params_yes"; "modify_params_no"].

(** [handleUploadOnly] (l. 186-198) *)
Definition handleUploadOnly (uid : Z) (s : session) : M unit :=
  try_catch
    (reply msg_uploading ;;
     uploadFile (fileName s) (fileContent s) ;;
     deleteSession_m uid ;;
     reply (lines ["✅ 脚本上传成功！"; ""; "文件名：" ++ fileName s]))
    (fun e => reply ("❌ 脚本上传失败：" ++ e)).

(** [handleEndSession] (l. 200-203) *)
Definition handleEndSession (uid : Z) : M unit :=
  deleteSession_m uid ;; reply "会话已结束。".

(** [handleModifyParamsYes] (l. 205-240) *)
Definition handleModifyParamsYes (uid : Z) (s : session) : M unit :=
  updateSession_m uid [UStage modify_params] ;;
  j ← stringify (opt_params_json (defaultParams s)) ;
  reply (lines ["请复制以下参数模板，修改后发送给我："; ""; code_block j; "";
                "提示："; "• 复制上面的JSON模板"; "• 修改需要的参数";
                "• 直接发送修改后的JSON给我"; ""; "参数说明：";
                "• name: 任务名称"; "• command: 执行命令（如：task demo.py）";
                "• schedule: cron表达式（如：0 0 * * * 表示每天0点执行）"; "";
                "⏱️ 请在120秒内完成参数修改并发送"]) ;;
  setSessionTimeout_m uid 120000 msg_timeout.

Definition task_created (n c sc : string) : string :=
  lines ["✅ 定时任务创建成功！"; ""; "任务名称：" ++ n; "执行命令：" ++ c;
         "执行时间：" ++ sc].

(** [handleModifyParamsNo] (l. 242-271) *)
Definition handleModifyParamsNo (uid : Z) (s : session) : M unit :=
  try_catch
    (match defaultParams s with
     | None => reply "❌ 默认参数不存在"
     | Some p =>
         reply msg_uploading ;;
         uploadFile (fileName s) (fileContent s) ;;
         reply msg_creating ;;
         createCronJob (JStr (name p)) (JStr (command p)) (JStr (schedule p)) ;;
         deleteSession_m uid ;;
         reply (task_created (name p) (command p) (schedule p))
     end)
    (fun e => reply ("❌ 操作失败：" ++ e)).

(** [session.modifiedParams] as a JavaScript value. *)
Definition modified_val (s : session) : jval :=
  match modifiedParams s with Some v => v | None => JUndef end.

(** [handleConfirmParams] (l. 273-315) *)
Definition handleConfirmParams (uid : Z) (s : session) : M unit :=
  try_catch
    (let params := modified_val s in
     if negb (truthy params) then reply msg_no_modified else
     bad ← missing_field params ;
     if (bad : bool) then reply msg_param_error else (
     reply msg_uploading ;;
     uploadFile (fileName s) (fileContent s) ;;
     reply msg_creating ;;
     n ← get_prop params "name" ;
     c ← get_prop params "command" ;
     sc ← get_prop params "schedule" ;
     createCronJob n c sc ;;
     deleteSession_m uid ;;
     n' ← str n ; c' ← str c ; sc' ← str sc ;
     reply (task_created n' c' sc')))
    (fun e => reply ("❌ 操作失败：" ++ e)).

(** [handleEditParams] (l. 317-346) *)
Definition handleEditParams (uid : Z) (s : session) : M unit :=
  try_catch
    (let params := modified_val s in
     if negb (truthy params) then reply msg_no_modified else (
     updateSession_m uid [UStage modify_params] ;;
     j ← stringify params ;
     reply (lines ["请修改以下参数并重新发送："; ""; code_block j; "";
                   "💡 提示：直接复制上面的JSON，修改后发送即可"])))
    (fun e => reply ("❌ 操作失败：" ++ e)).

(** [handleCancelCreate] (l. 348-365) *)
Definition handleCancelCreate (uid : Z) : M unit :=
  try_catch
    (deleteSession_m uid ;; reply "❌ 已取消创建任务，会话已结束。")
    (fun e => reply ("❌ 操作失败：" ++ e)).

(** [!userId] for [context.from?.id] *)
Definition user_id (from : option Z) : option Z :=
  match from with
  | Some uid => if Z.eqb uid 0 then None else Some uid
  | None => None
  end.

(** [handleCallbackQuery] (l. 93-163); [data] is [callbackQuery.data]. *)
Definition handleCallbackQuery (from : option Z) (data : string) : M unit :=
  if String.eqb data "" then mret tt else
  match user_id from with
  | None => try_catch (emit (AnswerCb (Some "无法获取用户ID")))
                      (fun e => emit (AnswerCb (Some ("操作失败：" ++ e))))
  | Some uid =>
      try_catch
        (ms ← getSession_m uid ;
         match ms with
         | None => emit (AnswerCb (Some msg_expired)) ;; reply msg_expired
         | Some s =>
             (if Str.startsWith data "create_task_" then handleCreateTask uid s
              else if Str.startsWith data "upload_only_" then handleUploadOnly uid s
              else if Str.startsWith data "end_session_" then handleEndSession uid
              else if String.eqb data "modify_params_yes" then handleModifyParamsYes uid s
              else if String.eqb data "modify_params_no" then handleModifyParamsNo uid s
              else if String.eqb data "confirm_params" then handleConfirmParams uid s
              else if String.eqb data "edit_params" then handleEditParams uid s
              else if String.eqb data "cancel_create" then handleCancelCreate uid
              else mret tt) ;;
             emit (AnswerCb None)
         end)
        (fun e => emit (AnswerCb (Some ("操作失败：" ++ e))))
  end.

(** [handleJsonParams] (l. 367-449); [text] is [context.text]. *)
Definition handleJsonParams (from : option Z) (text : option string) : M bool :=
  try_catch
    (match user_id from with
     | None => mret false
     | Some uid =>
         ms ← getSession_m uid ;
         match ms with
         | None => mret false
         | Some s =>
             if negb (stage_eqb (stage_of s) modify_params) then mret false else
             match text with
             | None | Some EmptyString => mret false
             | Some t =>
                 let trimmedText := Str.js_trim t in
                 if negb (Str.startsWith trimmedText "{")
                    || negb (Str.endsWith_char trimmedText "}")
                 then mret false else
                 params ← JSON_parse trimmedText ;
                 bad ← missing_field params ;
                 if (bad : bool) then (reply msg_param_error ;; mret true) else (
                 updateSession_m uid [UModifiedParams params; UStage confirm_params] ;;
                 j ← stringify params ;
                 reply_kb (lines ["确认使用以下参数创建定时任务？"; ""; code_block j])
                          ["confirm_params"; "edit_params"; "cancel_create"] ;;
                 mret true)
             end
         end
     end)
    (fun _ => mret false).

End FileProcessor.

(** [handleCommand] of [telegram_bot_client.ts] (l. 68-87), up to the
    call of the external [processCommand] and [sendReply]. *)
Definition handleCommand (from : option Z) (text : option string) : M unit :=
  isJson ← FileProcessor.handleJsonParams from text ;
  if (isJson : bool) then mret tt
  else emit (ProcessCommand (match text with Some t => t | None => "" end)).

(** A pending timer fires: the callback of [setSessionTimeout]
    ([deleteSession(userId); callback()]), where the callback of
    [handleModifyParamsYes] replies with the timeout notice. *)
Definition fire_timer (t : nat) : M unit :=
  tm ← gets (fun w => timers w !! t) ;
  match tm with
  | None => mret tt
  | Some tm =>
      modify (fun w => mkWorld (sessions w) (delete t (timers w)) (next_timer w)) ;;
      FileProcessor.deleteSession_m (t_user tm) ;;
      reply (t_notice tm)
  end.

(* ================================================================= *)
(** ** Invariants of the timer queue *)
(* ================================================================= *)


(** Every pending timer of user [uid] is the one recorded in the user's
    session: at most one pending expiry for the user. *)
Definition sole_timer (uid : Z) (w : world) : Prop :=
  forall t tm, timers w !! t = Some tm -> t_user tm = uid ->
    exists s, sessions w !! uid = Some s /\ timeoutId s = Some t.

(** The timers left after clearing the session's recorded timer. *)
Definition cleared (s : session) (w : world) : gmap nat timer :=
  match timeoutId s with
  | Some t => delete t (timers w)
  | None => timers w
  end.

(* ================================================================= *)
(** ** [createSession] of [src/src/util/session_manager.ts] (l. 20-34) *)
(* ================================================================= *)

(** The module that [file_processor.ts] imports ([./session_manager.js]).
    Its [getSession], [updateSession], [deleteSession] and
    [setSessionTimeout] are the code of part_001 (up to log lines), so
    they are the definitions of [SessionManager]; only [createSession]
    differs: it has no cron extractor. *)
Module SessionManagerTs.

Definition new_session (fileName fileContent : string) : session :=
  mkSession fileName fileContent uploaded
    (Some (mkParams (SessionManager.first_segment fileName) ("task " ++ fileName)
                    "0 0 * * *"))
    None None.

Definition createSession (userId : Z) (fileName fileContent : string)
    (w : world) : session * world :=
  let s := new_session fileName fileContent in
  (s, set_sessions (<[userId := s]> (sessions w)) w).

End SessionManagerTs.

(* ================================================================= *)
(** ** [handleFileUpload] ([src/src/util/file_processor.ts], l. 8-91) *)
(* ================================================================= *)

Module FileUpload.

(** [s.toLowerCase()] on the bytes of [s]: ASCII capitals become small
    letters, every other byte is kept.  (The only non-ASCII characters
    whose lower case is ASCII are the Kelvin sign and the dotted capital
    I, which give [k] and [i] plus a combining dot; neither helps to
    produce a supported extension.) *)
Definition lower_char (c : ascii) : ascii :=
  let n := nat_of_ascii c in
  if (65 <=? n)%nat && (n <=? 90)%nat then ascii_of_nat (n + 32) else c.

Fixpoint toLowerCase (s : string) : string :=
  match s with
  | EmptyString => EmptyString
  | String c r => String (lower_char c) (toLowerCase r)
  end.

(** [array.pop()]: the last element, [undefined] on an empty array. *)
Fixpoint pop (l : list string) : option string :=
  match l with
  | [] => None
  | [x] => Some x
  | _ :: r => pop r
  end.

Definition supportedExtensions : list string := ["js"; "py"; "sh"; "ts"; "mjs"].

(** [fileName.split('.').pop()?.toLowerCase()] *)
Definition fileExtension (fileName : string) : option string :=
  option_map toLowerCase (pop (Str.split_on "." fileName)).

(** [!fileExtension || !supportedExtensions.includes(fileExtension)] *)
Definition unsupported (ext : option string) : bool :=
  match ext with
  | None | Some EmptyString => true
  | Some x => negb (existsb (String.eqb x) supportedExtensions)
  end.

(** [message.document]: [file_name] is optional. *)
Record document : Type := mkDocument {
  file_name : option string;
  file_id : string
}.

(** [process.env.TG_BOT_TOKEN] and [process.env.TG_API_ROOT]. *)
Record tg_config : Type := mkTgConfig {
  TG_BOT_TOKEN : option string;
  TG_API_ROOT : option string
}.

(** The network: [context.telegram.getFile(file_id)] gives [file.file_path]
    and [axios.get(url, {responseType: 'text'})] gives [response.data];
    either may reject ([Throw] with the message of the error). *)
Record tg_net : Type := mkTgNet {
  getFile : string -> res string;
  http_get : string -> res string
}.

(** [await p] on a promise that settles with [r]. *)
Definition await {A} (r : res A) : M A := fun _ w l => (r, w, l).

(** [`${x}`] of a string that may be [undefined]. *)
Definition tmpl (x : option string) : string :=
  match x with Some s => s | None => "undefined" end.

(** [`${tgApiRoot}/file/bot${botToken}/${file.file_path}`] *)
Definition fileUrl (cfg : tg_config) (file_path : string) : string :=
  let tgApiRoot := SessionManager.or_default (TG_API_ROOT cfg) "https://api.telegram.org" in
  tgApiRoot ++ "/file/bot" ++ tmpl (TG_BOT_TOKEN cfg) ++ "/" ++ file_path.

Definition msg_no_file : string := "未检测到文件".
Definition msg_no_name : string := "无法获取文件名".
Definition msg_unsupported : string :=
  "不支持的文件类型。支持的文件类型：" ++ String.concat ", " supportedExtensions.
Definition msg_downloading : string := "正在下载文件...".
Definition msg_no_user : string := "无法获取用户ID".

Definition msg_downloaded (fileName : string) : string :=
  lines ["✅ 文件下载成功！"; ""; "文件名：" ++ fileName; ""; "请选择下一步操作："].

Definition upload_buttons (fileName : string) : list string :=
  ["create_task_" ++ fileName; "upload_only_" ++ fileName; "end_session_" ++ fileName].

(** [handleFileUpload(context)]: [message] is [context.message] ([None]:
    no message; [Some None]: no [document] in it), [from] is
    [context.from?.id].  The session is created by the [createSession] of
    [session_manager.ts], the module [file_processor.ts] imports. *)
Definition handleFileUpload (cfg : tg_config) (net : tg_net) (from : option Z)
    (message : option (option document)) : M unit :=
  try_catch
    (match message with
     | None | Some None => reply msg_no_file
     | Some (Some doc) =>
         match file_name doc with
         | None | Some EmptyString => reply msg_no_name
         | Some fileName =>
             if unsupported (fileExtension fileName) then reply msg_unsupported else (
             reply msg_downloading ;;
             file_path ← await (getFile net (file_id doc)) ;
             fileContent ← await (http_get net (fileUrl cfg file_path)) ;
             match FileProcessor.user_id from with
             | None => reply msg_no_user
             | Some userId =>
                 modify (fun w => snd (SessionManagerTs.createSession userId fileName fileContent w)) ;;
                 reply_kb (msg_downloaded fileName) (upload_buttons fileName)
             end)
         end
     end)
    (fun e => reply ("❌ 文件下载失败：" ++ e)).

End FileUpload.

(* ================================================================= *)
(** ** [sendReply] ([src/src/handler/telegram_bot_client.ts], l. 191-213) *)
(* ================================================================= *)

(** Here lengths matter, and a JavaScript string's [length] counts UTF-16
    code units, so the text is a list of code units. *)
Module Reply16.

Definition u16 : Type := list Z.

(** The white space of [String.prototype.trim]: WhiteSpace and
    LineTerminator code points, all in the BMP. *)
Definition is_js_ws (u : Z) : bool :=
  (Z.leb 9 u && Z.leb u 13) || Z.eqb u 32 || Z.eqb u 160 || Z.eqb u 5760
  || (Z.leb 8192 u && Z.leb u 8202) || Z.eqb u 8232 || Z.eqb u 8233
  || Z.eqb u 8239 || Z.eqb u 8287 || Z.eqb u 12288 || Z.eqb u 65279.

Fixpoint trim_start (s : u16) : u16 :=
  match s with
  | [] => []
  | u :: r => if is_js_ws u then trim_start r else s
  end.

(** [s.trim()]: white space removed at both ends. *)
Definition trim (s : u16) : u16 := rev (trim_start (rev (trim_start s))).

(** [s.split('\n')] *)
Fixpoint split_nl (s : u16) : list u16 :=
  match s with
  | [] => [[]]
  | u :: r =>
      let rest := split_nl r in
      if Z.eqb u 10 then [] :: rest
      else match rest with
           | h :: t => (u :: h) :: t
           | [] => [[u]]
           end
  end.

Definition nonempty (s : u16) : bool :=
  match s with [] => false | _ => true end.

(** [replyHtml.split('\n').filter(parts => parts)] *)
Definition stringParts (replyHtml : u16) : list u16 :=
  filter (fun p => nonempty p) (split_nl replyHtml).

(** [`${part.trim()}\n`], the text the loop appends for a part. *)
Definition line (p : u16) : u16 := (trim p ++ [10%Z])%list.

(** The [for] loop: the messages sent by [replyWithHTML] on the way, and
    the buffer [replyString] at the end. *)
Fixpoint send_loop (replyString : u16) (parts : list u16) : list u16 * u16 :=
  match parts with
  | [] => ([], replyString)
  | part :: rest =>
      let '(sent, buf) :=
        if Z.leb 4096 (Z.of_nat (length replyString) + Z.of_nat (length part))
        then ([replyString], []) else ([], replyString) in
      let '(sent', fin) := send_loop (buf ++ trim part ++ [10%Z])%list rest in
      ((sent ++ sent')%list, fin)
  end.

(** [sendReply(context, message)]: the texts passed to
    [context.replyWithHTML], in order; [parseInline] is
    [marked.parseInline]. *)
Definition sendReply (parseInline : u16 -> u16) (message : u16) : list u16 :=
  let replyHtml := parseInline (trim message) in
  let '(sent, replyString) := send_loop [] (stringParts replyHtml) in
  (sent ++ (if nonempty replyString then [replyString] else []))%list.

End Reply16.

(* ================================================================= *)
(** ** Concrete inputs *)
(* ================================================================= *)

Module Inputs.

Definition dq : string := String (ascii_of_nat 34) EmptyString.
Definition quoted (x : string) : string := dq ++ x ++ dq.

(** [{"name":"demo","command":"task demo.py","schedule":"5 4 * * *"}] *)
Definition text_full : string :=
  "{" ++ quoted "name" ++ ":" ++ quoted "demo" ++ "," ++ quoted "command" ++ ":"
  ++ quoted "task demo.py" ++ "," ++ quoted "schedule" ++ ":" ++ quoted "5 4 * * *" ++ "}".
Definition obj_full : jval :=
  JObj [("name", JStr "demo"); ("command", JStr "task demo.py");
        ("schedule", JStr "5 4 * * *")].

(** [{"name":"x"}] (end-to-end scenario 4 of the spec) *)
Definition text_name_only : string := "{" ++ quoted "name" ++ ":" ++ quoted "x" ++ "}".
Definition obj_name_only : jval := JObj [("name", JStr "x")].

(** [{"name":}], which [JSON.parse] rejects *)
Definition text_broken : string := "{" ++ quoted "name" ++ ":}".

(** The UTF-8 encodings of U+00A0 (no-break space) and U+3000
    (ideographic space), white space for [String.prototype.trim]. *)
Definition nbsp : string := String (ascii_of_nat 194) (String (ascii_of_nat 160) EmptyString).
Definition ideo_space : string :=
  String (ascii_of_nat 227) (String (ascii_of_nat 128) (String (ascii_of_nat 128) EmptyString)).

(** A text sent with white space around it. *)
Definition padded (t : string) : string :=
  nbsp ++ " " ++ t ++ ideo_space ++ String (ascii_of_nat 10) EmptyString.

(** A test double of the runtime: [JSON.parse] knows the texts above;
    the backend calls succeed or fail as given. *)
Definition test_parse (t : string) : option jval :=
  if String.eqb t text_full then Some obj_full
  else if String.eqb t text_name_only then Some obj_name_only
  else None.

Definition test_env (up cron : option string) : env :=
  mkEnv test_parse (fun _ => "{...}")
        (fun v => match v with JStr x => x | _ => EmptyString end)
        (fun _ _ => up) (fun _ _ _ => cron).

Definition demo_content : string := "0 0 * * * python demo.py".
Definition demo_defaults : params := mkParams "demo" "task demo.py" "0 0 * * *".

(** Concrete run used for claim C1: a file is uploaded, the user asks to
    customise (120 s expiry armed), then uploads a second file. *)
Definition c1_w1 : world :=
  snd (SessionManager.createSession 7 "demo.py" demo_content
                                     (mkWorld ∅ ∅ 0)).
Definition c1_w2 : world :=
  SessionManager.setSessionTimeout 7 120000 msg_timeout c1_w1.
Definition c1_w3 : world :=
  snd (SessionManager.createSession 7 "new.py" "echo hi" c1_w2).

Definition s_uploaded : session :=
  mkSession "demo.py" demo_content uploaded (Some demo_defaults) None None.

(** The user presses "modify_params_yes". *)
Definition w_modify : world :=
  snd (fst (run (FileProcessor.handleCallbackQuery (Some 7%Z) "modify_params_yes")
                (test_env None None) c1_w1)).
Definition s_modify : session :=
  mkSession "demo.py" demo_content modify_params (Some demo_defaults) None (Some 0%nat).

(** The user then sends [text_full]. *)
Definition w_confirm : world :=
  snd (fst (run (handleCommand (Some 7%Z) (Some text_full)) (test_env None None) w_modify)).
Definition s_confirm : session :=
  mkSession "demo.py" demo_content confirm_params (Some demo_defaults) (Some obj_full)
            (Some 0%nat).

Definition tab : string := String (ascii_of_nat 9) EmptyString.

(** [0\t0\t*\t*\t*]: five cron fields separated by tabs. *)
Definition cron_tabbed : string :=
  "0" ++ tab ++ "0" ++ tab ++ "*" ++ tab ++ "*" ++ tab ++ "*".

(** Four whitespace-separated cron fields after the word [x1]. *)
Definition cron_in_word : string := "x1 2 3 4 5".

End Inputs.

(* ================================================================= *)
(** * Proofs *)
(* ================================================================= *)

Module SessionFacts.
Import SessionManager.

Lemma set_sessions_same (w : world) : set_sessions (sessions w) w = w.
Proof. destruct w; reflexivity. Qed.

Lemma deleteSession_absent (w : world) (uid : Z) :
  sessions w !! uid = None -> deleteSession uid w = w.
Proof.
  intros H. unfold deleteSession. rewrite H.
  destruct w as [ss ts n]; unfold set_sessions; simpl in *.
  rewrite delete_id by done. reflexivity.
Qed.

Lemma deleteSession_present (w : world) (uid : Z) (s : session) :
  sessions w !! uid = Some s ->
  deleteSession uid w =
  mkWorld (delete uid (sessions w)) (cleared s w) (next_timer w).
Proof.
  intros H. unfold deleteSession, cleared. rewrite H.
  destruct (timeoutId s); reflexivity.
Qed.

Lemma deleteSession_lookup (w : world) (uid : Z) :
  sessions (deleteSession uid w) !! uid = None.
Proof.
  unfold deleteSession.
  destruct (sessions w !! uid) as [s|] eqn:E; [destruct (timeoutId s)|];
    simpl; apply lookup_delete_eq.
Qed.

Lemma setSessionTimeout_present (w : world) (uid ms : Z) (notice : string)
    (s : session) :
  sessions w !! uid = Some s ->
  setSessionTimeout uid ms notice w =
  mkWorld (<[uid := set_timeoutId (next_timer w) s]> (sessions w))
          (<[next_timer w := mkTimer uid ms notice]> (cleared s w))
          (S (next_timer w)).
Proof.
  intros H. unfold setSessionTimeout, cleared. rewrite H.
  destruct (timeoutId s); reflexivity.
Qed.

Lemma createSession_world (w : world) (uid : Z) (f c : string) :
  createSession uid f c w =
  (new_session f c,
   mkWorld (<[uid := new_session f c]> (sessions w)) (timers w) (next_timer w)).
Proof. reflexivity. Qed.

End SessionFacts.

(** C1 (code defect).  [createSession] never cancels a timer: the timers
    of the world are the same after it.  At the concrete run [Inputs.c1_w3], the
    timer armed for the first session (handle 0) is still pending after
    the second [createSession]; the new session records no timer, and
    when the orphaned timer fires it deletes the new session. *)
Theorem createSession_orphans_old_timer (e : env) :
  (forall (w : world) (uid : Z) (f c : string),
      timers (snd (SessionManager.createSession uid f c w)) = timers w) /\
  timers Inputs.c1_w2 !! 0%nat = Some (mkTimer 7 120000 msg_timeout) /\
  timers Inputs.c1_w3 !! 0%nat = Some (mkTimer 7 120000 msg_timeout) /\
  (exists s, sessions Inputs.c1_w3 !! 7%Z = Some s /\ fileName s = "new.py" /\
             timeoutId s = None) /\
  sessions (snd (fst (run (fire_timer 0) e Inputs.c1_w3))) !! 7%Z = None.
Proof.
  split; [intros; reflexivity|].
  split; [reflexivity|]. split; [reflexivity|].
  split; [eexists; repeat split; reflexivity|].
  reflexivity.
Qed.

(** C8.  [deleteSession] is idempotent: on an absent user it changes
    nothing (and, run as a handler step, it returns normally with no
    effect); deleting twice is deleting once; on a present session it
    clears the session's timer and removes the session. *)
Theorem deleteSession_idempotent (w : world) (uid : Z) :
  (sessions w !! uid = None ->
     SessionManager.deleteSession uid w = w /\
     forall e, run (FileProcessor.deleteSession_m uid) e w = (Ok tt, w, [])) /\
  SessionManager.deleteSession uid (SessionManager.deleteSession uid w) =
    SessionManager.deleteSession uid w /\
  (forall s, sessions w !! uid = Some s ->
     SessionManager.deleteSession uid w =
     mkWorld (delete uid (sessions w)) (cleared s w) (next_timer w)).
Proof.
  split; [|split].
  - intros H. split; [by apply SessionFacts.deleteSession_absent|].
    intros e. unfold run, FileProcessor.deleteSession_m, modify.
    rewrite SessionFacts.deleteSession_absent by done. reflexivity.
  - apply SessionFacts.deleteSession_absent, SessionFacts.deleteSession_lookup.
  - intros s H. by apply SessionFacts.deleteSession_present.
Qed.

Lemma deleteSession_idempotent_witness :
  sessions (mkWorld ∅ ∅ 0) !! 7%Z = None /\
  SessionManager.deleteSession 7%Z (mkWorld ∅ ∅ 0) = mkWorld ∅ ∅ 0.
Proof.
  split; [reflexivity|].
  apply (proj1 (deleteSession_idempotent (mkWorld ∅ ∅ 0) 7%Z)). reflexivity.
Defined.



Module HandlerFacts.

Lemma user_id_some (uid : Z) : uid <> 0%Z -> FileProcessor.user_id (Some uid) = Some uid.
Proof. intros H. unfold FileProcessor.user_id. destruct (Z.eqb_spec uid 0); congruence. Qed.

(** The three-field check on a parsed object never throws and changes
    nothing; it reports whether a field is falsy. *)
Lemma missing_field_obj (kvs : list (string * jval)) (e : env) (w : world) (l : list event) :
  missing_field (JObj kvs) e w l =
  (Ok (negb (truthy (assoc_lookup "name" kvs) && truthy (assoc_lookup "command" kvs)
             && truthy (assoc_lookup "schedule" kvs))), w, l).
Proof.
  unfold missing_field, get_prop, mbind, M_bind, mret, M_ret.
  destruct (truthy (assoc_lookup "name" kvs)), (truthy (assoc_lookup "command" kvs)),
    (truthy (assoc_lookup "schedule" kvs)); reflexivity.
Qed.

Lemma brace_nonempty (t : string) :
  Str.startsWith (Str.js_trim t) "{" = true -> t <> EmptyString.
Proof. intros H ->. discriminate H. Qed.

End HandlerFacts.

(** Unfolding the prefix of [handleJsonParams] that a brace-shaped text
    from a user in stage [modify_params] goes through. *)
Ltac json_prefix t Hu Hs Hst Hb He :=
  unfold run, FileProcessor.handleJsonParams, try_catch;
  rewrite (HandlerFacts.user_id_some _ Hu);
  unfold FileProcessor.getSession_m, gets, mbind, M_bind;
  unfold SessionManager.getSession; rewrite Hs, Hst; simpl;
  destruct t as [|? ?]; [discriminate Hb|];
  rewrite Hb, He; simpl;
  unfold JSON_parse, asks, mbind, M_bind.

(** C9.  A brace-shaped text that [JSON.parse] rejects, sent by a user in
    stage [modify_params]: [handleJsonParams] catches the [SyntaxError]
    and returns [false] with no reply and no change of the world, so
    [handleCommand] passes the text on to ordinary command processing. *)
Theorem jsonParams_unparsable_falls_through (e : env) (w : world) (uid : Z)
    (s : session) (t : string) :
  uid <> 0%Z -> sessions w !! uid = Some s -> stage_of s = modify_params ->
  Str.startsWith (Str.js_trim t) "{" = true -> Str.endsWith_char (Str.js_trim t) "}" = true ->
  json_parse e (Str.js_trim t) = None ->
  run (FileProcessor.handleJsonParams (Some uid) (Some t)) e w = (Ok false, w, []) /\
  run (handleCommand (Some uid) (Some t)) e w = (Ok tt, w, [ProcessCommand t]).
Proof.
  intros Hu Hs Hst Hb He Hp.
  assert (H : run (FileProcessor.handleJsonParams (Some uid) (Some t)) e w = (Ok false, w, [])).
  { json_prefix t Hu Hs Hst Hb He. rewrite Hp. reflexivity. }
  split; [exact H|].
  unfold run, handleCommand, mbind, M_bind. unfold run in H. rewrite H. reflexivity.
Qed.

(** C6.  A brace-shaped text that parses to an object with a missing or
    empty (falsy) [name], [command] or [schedule], sent by a user in stage
    [modify_params]: [handleJsonParams] replies with the validation error,
    consumes the text ([true]) and leaves the world as it was: the stage
    stays [modify_params] and the pending timers are untouched. *)
Theorem jsonParams_missing_field_rejected (e : env) (w : world) (uid : Z)
    (s : session) (t : string) (kvs : list (string * jval)) :
  uid <> 0%Z -> sessions w !! uid = Some s -> stage_of s = modify_params ->
  Str.startsWith (Str.js_trim t) "{" = true -> Str.endsWith_char (Str.js_trim t) "}" = true ->
  json_parse e (Str.js_trim t) = Some (JObj kvs) ->
  truthy (assoc_lookup "name" kvs) = false \/
  truthy (assoc_lookup "command" kvs) = false \/
  truthy (assoc_lookup "schedule" kvs) = false ->
  run (FileProcessor.handleJsonParams (Some uid) (Some t)) e w =
    (Ok true, w, [Reply msg_param_error []]) /\
  sessions w !! uid = Some s /\ stage_of s = modify_params.
Proof.
  intros Hu Hs Hst Hb He Hp Hmiss.
  split; [|split; assumption].
  json_prefix t Hu Hs Hst Hb He. rewrite Hp. cbn -[missing_field].
  rewrite HandlerFacts.missing_field_obj.
  assert (Hneg : negb (truthy (assoc_lookup "name" kvs) && truthy (assoc_lookup "command" kvs)
                       && truthy (assoc_lookup "schedule" kvs)) = true).
  { destruct Hmiss as [H|[H|H]]; rewrite H; [reflexivity| |];
      destruct (truthy (assoc_lookup "name" kvs)); try reflexivity;
      destruct (truthy (assoc_lookup "command" kvs)); reflexivity. }
  rewrite Hneg. reflexivity.
Qed.

(** C3.  A brace-shaped text that parses to an object whose [name],
    [command] and [schedule] are non-empty strings, sent by a user in
    stage [modify_params]: the session moves to [confirm_params] with
    [modifiedParams] exactly the parsed object, every other field (and
    every other session and timer) unchanged, and the confirmation
    message with its three buttons is sent. *)
Theorem jsonParams_accepts_object (e : env) (w : world) (uid : Z)
    (s : session) (t : string) (kvs : list (string * jval)) (n c sc : string) :
  uid <> 0%Z -> sessions w !! uid = Some s -> stage_of s = modify_params ->
  Str.startsWith (Str.js_trim t) "{" = true -> Str.endsWith_char (Str.js_trim t) "}" = true ->
  json_parse e (Str.js_trim t) = Some (JObj kvs) ->
  assoc_lookup "name" kvs = JStr n -> n <> EmptyString ->
  assoc_lookup "command" kvs = JStr c -> c <> EmptyString ->
  assoc_lookup "schedule" kvs = JStr sc -> sc <> EmptyString ->
  run (FileProcessor.handleJsonParams (Some uid) (Some t)) e w =
    (Ok true,
     mkWorld (<[uid := mkSession (fileName s) (fileContent s) confirm_params
                                 (defaultParams s) (Some (JObj kvs)) (timeoutId s)]>
              (sessions w)) (timers w) (next_timer w),
     [Reply (lines ["确认使用以下参数创建定时任务？"; "";
                    code_block (json_stringify e (JObj kvs))])
            ["confirm_params"; "edit_params"; "cancel_create"]]).
Proof.
  intros Hu Hs Hst Hb He Hp Hn Hn' Hc Hc' Hsc Hsc'.
  json_prefix t Hu Hs Hst Hb He. rewrite Hp. cbn -[missing_field].
  rewrite HandlerFacts.missing_field_obj, Hn, Hc, Hsc. simpl.
  apply String.eqb_neq in Hn', Hc', Hsc'. rewrite Hn', Hc', Hsc'. simpl.
  unfold SessionManager.updateSession. rewrite Hs. simpl.
  reflexivity.
Qed.

Lemma jsonParams_unparsable_falls_through_witness :
  run (FileProcessor.handleJsonParams (Some 7%Z) (Some (Inputs.padded Inputs.text_broken)))
      (Inputs.test_env None None) Inputs.w_modify = (Ok false, Inputs.w_modify, []) /\
  run (handleCommand (Some 7%Z) (Some (Inputs.padded Inputs.text_broken)))
      (Inputs.test_env None None) Inputs.w_modify =
    (Ok tt, Inputs.w_modify, [ProcessCommand (Inputs.padded Inputs.text_broken)]).
Proof.
  apply (jsonParams_unparsable_falls_through (Inputs.test_env None None) Inputs.w_modify
           7 Inputs.s_modify (Inputs.padded Inputs.text_broken));
    [lia | vm_compute; reflexivity .. ].
Defined.

Lemma jsonParams_missing_field_rejected_witness :
  run (FileProcessor.handleJsonParams (Some 7%Z) (Some (Inputs.padded Inputs.text_name_only)))
      (Inputs.test_env None None) Inputs.w_modify =
    (Ok true, Inputs.w_modify, [Reply msg_param_error []]) /\
  sessions Inputs.w_modify !! 7%Z = Some Inputs.s_modify /\
  stage_of Inputs.s_modify = modify_params.
Proof.
  apply (jsonParams_missing_field_rejected (Inputs.test_env None None) Inputs.w_modify
           7 Inputs.s_modify (Inputs.padded Inputs.text_name_only) [("name", JStr "x")]);
    [lia | vm_compute; reflexivity .. | right; left; reflexivity].
Defined.

Lemma jsonParams_accepts_object_witness :
  run (FileProcessor.handleJsonParams (Some 7%Z) (Some (Inputs.padded Inputs.text_full)))
      (Inputs.test_env None None) Inputs.w_modify =
    (Ok true,
     mkWorld (<[7%Z := Inputs.s_confirm]> (sessions Inputs.w_modify))
             (timers Inputs.w_modify) (next_timer Inputs.w_modify),
     [Reply (lines ["确认使用以下参数创建定时任务？"; ""; code_block "{...}"])
            ["confirm_params"; "edit_params"; "cancel_create"]]).
Proof.
  apply (jsonParams_accepts_object (Inputs.test_env None None) Inputs.w_modify
           7 Inputs.s_modify (Inputs.padded Inputs.text_full)
           [("name", JStr "demo"); ("command", JStr "task demo.py");
            ("schedule", JStr "5 4 * * *")] "demo" "task demo.py" "5 4 * * *");
    first [lia | vm_compute; reflexivity | discriminate].
Defined.

(** C10.  Pressing "confirm_params" or "edit_params" while the session has
    no [modifiedParams] (e.g. before any JSON was accepted): one error
    reply, the callback is answered, no backend call, and the world is
    unchanged.  [handleConfirmParams] also re-checks the three fields:
    with one of them falsy it replies with the validation error, calls no
    backend and changes nothing. *)
Theorem confirm_edit_without_params (e : env) (w : world) (uid : Z) :
  uid <> 0%Z ->
  (forall s, sessions w !! uid = Some s -> modifiedParams s = None ->
     run (FileProcessor.handleCallbackQuery (Some uid) "confirm_params") e w =
       (Ok tt, w, [Reply msg_no_modified []; AnswerCb None]) /\
     run (FileProcessor.handleCallbackQuery (Some uid) "edit_params") e w =
       (Ok tt, w, [Reply msg_no_modified []; AnswerCb None])) /\
  (forall s kvs, modifiedParams s = Some (JObj kvs) ->
     truthy (assoc_lookup "name" kvs) = false \/
     truthy (assoc_lookup "command" kvs) = false \/
     truthy (assoc_lookup "schedule" kvs) = false ->
     run (FileProcessor.handleConfirmParams uid s) e w =
       (Ok tt, w, [Reply msg_param_error []])).
Proof.
  intros Hu. split.
  - intros s Hs Hm.
    split; unfold run, FileProcessor.handleCallbackQuery;
      rewrite (HandlerFacts.user_id_some _ Hu); simpl;
      unfold try_catch, mbind, M_bind, FileProcessor.getSession_m, gets,
        SessionManager.getSession;
      rewrite Hs;
      unfold FileProcessor.handleConfirmParams, FileProcessor.handleEditParams,
        try_catch, FileProcessor.modified_val;
      rewrite Hm; reflexivity.
  - intros s kvs Hm Hmiss.
    unfold run, FileProcessor.handleConfirmParams, try_catch, FileProcessor.modified_val.
    rewrite Hm. cbn -[missing_field]. unfold mbind, M_bind.
    rewrite HandlerFacts.missing_field_obj.
    assert (Hneg : negb (truthy (assoc_lookup "name" kvs) && truthy (assoc_lookup "command" kvs)
                         && truthy (assoc_lookup "schedule" kvs)) = true).
    { destruct Hmiss as [H|[H|H]]; rewrite H; [reflexivity| |];
        destruct (truthy (assoc_lookup "name" kvs)); try reflexivity;
        destruct (truthy (assoc_lookup "command" kvs)); reflexivity. }
    rewrite Hneg. reflexivity.
Qed.

Lemma confirm_edit_without_params_witness :
  run (FileProcessor.handleCallbackQuery (Some 7%Z) "confirm_params")
      (Inputs.test_env None None) Inputs.w_modify =
    (Ok tt, Inputs.w_modify, [Reply msg_no_modified []; AnswerCb None]) /\
  run (FileProcessor.handleConfirmParams 7 
         (mkSession "demo.py" Inputs.demo_content confirm_params
            (Some Inputs.demo_defaults) (Some Inputs.obj_name_only) (Some 0%nat)))
      (Inputs.test_env None None) Inputs.w_modify =
    (Ok tt, Inputs.w_modify, [Reply msg_param_error []]).
Proof.
  destruct (confirm_edit_without_params (Inputs.test_env None None) Inputs.w_modify 7)
    as [H1 H2]; [lia|].
  split.
  - apply (H1 Inputs.s_modify); reflexivity.
  - apply (H2 _ [("name", JStr "x")]); [reflexivity | right; left; reflexivity].
Defined.

Ltac run_handler :=
  unfold run, FileProcessor.handleUploadOnly, FileProcessor.handleModifyParamsNo,
    FileProcessor.handleConfirmParams, FileProcessor.modified_val,
    try_catch, reply, emit, uploadFile, createCronJob, asks, throw;
  unfold mbind, M_bind, mret, M_ret.

(** C2 (as the code has it).  When [uploadFile] or [createCronJob]
    rejects with message [err] in [handleUploadOnly],
    [handleModifyParamsNo] or [handleConfirmParams], the handler catches
    the error and replies with [err]; the session is NOT deleted: the
    whole world (sessions and timers) is what it was before the handler
    ran.  The effects are exactly the progress replies, the backend calls
    made, and the error reply. *)
Theorem backend_failure_keeps_session (e : env) (w : world) (uid : Z)
    (s : session) (err : string) :
  (upload_result e (fileName s) (fileContent s) = Some err ->
     run (FileProcessor.handleUploadOnly uid s) e w =
       (Ok tt, w, [Reply msg_uploading []; UploadFile (fileName s) (fileContent s);
                   Reply ("❌ 脚本上传失败：" ++ err) []])) /\
  (forall p, defaultParams s = Some p ->
     (upload_result e (fileName s) (fileContent s) = Some err ->
        run (FileProcessor.handleModifyParamsNo uid s) e w =
          (Ok tt, w, [Reply msg_uploading []; UploadFile (fileName s) (fileContent s);
                      Reply ("❌ 操作失败：" ++ err) []])) /\
     (upload_result e (fileName s) (fileContent s) = None ->
      cron_result e (JStr (name p)) (JStr (command p)) (JStr (schedule p)) = Some err ->
        run (FileProcessor.handleModifyParamsNo uid s) e w =
          (Ok tt, w, [Reply msg_uploading []; UploadFile (fileName s) (fileContent s);
                      Reply msg_creating [];
                      CreateCronJob (JStr (name p)) (JStr (command p)) (JStr (schedule p));
                      Reply ("❌ 操作失败：" ++ err) []]))) /\
  (forall kvs, modifiedParams s = Some (JObj kvs) ->
     truthy (assoc_lookup "name" kvs) = true ->
     truthy (assoc_lookup "command" kvs) = true ->
     truthy (assoc_lookup "schedule" kvs) = true ->
     (upload_result e (fileName s) (fileContent s) = Some err ->
        run (FileProcessor.handleConfirmParams uid s) e w =
          (Ok tt, w, [Reply msg_uploading []; UploadFile (fileName s) (fileContent s);
                      Reply ("❌ 操作失败：" ++ err) []])) /\
     (upload_result e (fileName s) (fileContent s) = None ->
      cron_result e (assoc_lookup "name" kvs) (assoc_lookup "command" kvs)
                    (assoc_lookup "schedule" kvs) = Some err ->
        run (FileProcessor.handleConfirmParams uid s) e w =
          (Ok tt, w, [Reply msg_uploading []; UploadFile (fileName s) (fileContent s);
                      Reply msg_creating [];
                      CreateCronJob (assoc_lookup "name" kvs) (assoc_lookup "command" kvs)
                                    (assoc_lookup "schedule" kvs);
                      Reply ("❌ 操作失败：" ++ err) []]))).
Proof.
  split; [|split].
  - intros Hup. run_handler. rewrite Hup. reflexivity.
  - intros p Hp. split.
    + intros Hup. run_handler. rewrite Hp, Hup. reflexivity.
    + intros Hup Hcr. run_handler. rewrite Hp, Hup. simpl. rewrite Hcr. reflexivity.
  - intros kvs Hm Hn Hc Hs. run_handler. rewrite Hm. cbn -[missing_field].
    unfold mbind, M_bind.
    rewrite HandlerFacts.missing_field_obj, Hn, Hc, Hs. simpl.
    split.
    + intros Hup. rewrite Hup. reflexivity.
    + intros Hup Hcr. rewrite Hup. simpl. rewrite Hcr. reflexivity.
Qed.

Lemma backend_failure_keeps_session_witness :
  run (FileProcessor.handleUploadOnly 7 Inputs.s_uploaded)
      (Inputs.test_env (Some "ECONNREFUSED") None) Inputs.c1_w1 =
    (Ok tt, Inputs.c1_w1,
     [Reply msg_uploading []; UploadFile "demo.py" Inputs.demo_content;
      Reply ("❌ 脚本上传失败：" ++ "ECONNREFUSED") []]) /\
  run (FileProcessor.handleConfirmParams 7 Inputs.s_confirm)
      (Inputs.test_env None (Some "cron rejected")) Inputs.w_confirm =
    (Ok tt, Inputs.w_confirm,
     [Reply msg_uploading []; UploadFile "demo.py" Inputs.demo_content;
      Reply msg_creating [];
      CreateCronJob (JStr "demo") (JStr "task demo.py") (JStr "5 4 * * *");
      Reply ("❌ 操作失败：" ++ "cron rejected") []]).
Proof.
  split.
  - apply (proj1 (backend_failure_keeps_session (Inputs.test_env (Some "ECONNREFUSED") None)
                    Inputs.c1_w1 7 Inputs.s_uploaded "ECONNREFUSED")).
    reflexivity.
  - apply (proj2 (proj2 (proj2 (backend_failure_keeps_session
                    (Inputs.test_env None (Some "cron rejected"))
                    Inputs.w_confirm 7 Inputs.s_confirm "cron rejected"))
             [("name", JStr "demo"); ("command", JStr "task demo.py");
              ("schedule", JStr "5 4 * * *")] eq_refl eq_refl eq_refl eq_refl));
      reflexivity.
Defined.

(** C2 (the claim as stated fails).  Pressing "upload only" when the
    upload fails, or "confirm" when the job registration fails, leaves the
    user's session in the store. *)
Lemma backend_failure_session_survives :
  sessions Inputs.c1_w1 !! 7%Z = Some Inputs.s_uploaded /\
  sessions (snd (fst (run (FileProcessor.handleCallbackQuery (Some 7%Z) "upload_only_demo.py")
                          (Inputs.test_env (Some "ECONNREFUSED") None) Inputs.c1_w1)))
    !! 7%Z = Some Inputs.s_uploaded /\
  sessions Inputs.w_confirm !! 7%Z = Some Inputs.s_confirm /\
  sessions (snd (fst (run (FileProcessor.handleCallbackQuery (Some 7%Z) "confirm_params")
                          (Inputs.test_env None (Some "cron rejected")) Inputs.w_confirm)))
    !! 7%Z = Some Inputs.s_confirm.
Proof. vm_compute. repeat split. Qed.

(* ----------------------------------------------------------------- *)
(** *** The Cron Extractor *)
(* ----------------------------------------------------------------- *)

Module CronFacts.
Import Cron.

(** stdpp makes [String.append] [simpl never]; its two equations. *)
Lemma str_app_cons (x : ascii) (a b : string) : String x a ++ b = String x (a ++ b).
Proof. reflexivity. Qed.

Lemma str_app_nil_l (b : string) : EmptyString ++ b = b.
Proof. reflexivity. Qed.

Lemma str_app_assoc (a b c : string) : (a ++ b) ++ c = a ++ (b ++ c).
Proof. induction a as [|x a IH]; [reflexivity|]. rewrite !str_app_cons, IH. reflexivity. Qed.

Lemma str_app_nil_r (a : string) : a ++ EmptyString = a.
Proof. induction a as [|x a IH]; [reflexivity|]. rewrite str_app_cons, IH. reflexivity. Qed.

Lemma cron_char_not_ws (c : ascii) : is_cron_char c = true -> Str.is_ws c = false.
Proof. destruct c as [[] [] [] [] [] [] [] []]; vm_compute; congruence. Qed.

Lemma cron_run_spec (s : string) :
  s = fst (cron_run s) ++ snd (cron_run s) /\ all_cron (fst (cron_run s)) = true.
Proof.
  induction s as [|c r IH]; simpl; [split; reflexivity|].
  destruct (is_cron_char c) eqn:Ec.
  - destruct (cron_run r) as [t r'] eqn:E. simpl in *.
    destruct IH as [IH1 IH2]. rewrite str_app_cons, <- IH1, Ec, IH2. split; reflexivity.
  - split; reflexivity.
Qed.

Lemma cron_group_spec (s g r : string) :
  cron_group s = Some (g, r) ->
  exists t, g = t ++ " " /\ cron_token t = true /\ s = g ++ r.
Proof.
  unfold cron_group. pose proof (cron_run_spec s) as [H1 H2].
  destruct (cron_run s) as [[|c t] [|sp r']]; simpl in *; try discriminate.
  destruct (Ascii.eqb sp " ") eqn:Esp; [|discriminate].
  apply Ascii.eqb_eq in Esp. subst sp. intros [= <- <-].
  exists (String c t). split; [reflexivity|]. split.
  - unfold cron_token. simpl. exact H2.
  - rewrite H1, str_app_assoc. reflexivity.
Qed.

Lemma cron_final_spec (s m : string) :
  cron_final s = Some m -> cron_token m = true /\ exists r, s = m ++ r.
Proof.
  unfold cron_final. pose proof (cron_run_spec s) as [H1 H2].
  destruct (cron_run s) as [[|c t] r]; simpl in *; [discriminate|].
  intros [= <-]. split; [unfold cron_token; simpl; exact H2|]. exists r. exact H1.
Qed.

Lemma concat_cons2 (t u : string) (fs : list string) :
  Str.join_sp (t :: u :: fs) = t ++ " " ++ Str.join_sp (u :: fs).
Proof. reflexivity. Qed.

(** An anchored match of the pattern is [min_more+1 .. max_more+1] fields
    joined by single spaces, and a prefix of the input. *)
Lemma cron_reps_spec (n k : nat) (s m : string) :
  cron_reps n k s = Some m -> (k <= n)%nat ->
  exists fs post, s = m ++ post /\ m = Str.join_sp fs /\
    Forall (fun f => cron_token f = true) fs /\
    (S k <= length fs <= S n)%nat.
Proof.
  revert k s m. induction n as [|n IH]; intros k s m Hm Hk; simpl in Hm.
  - apply cron_final_spec in Hm as [Ht [r Hr]].
    exists [m], r. repeat split; [exact Hr | constructor; [exact Ht | constructor] | simpl; lia..].
  - destruct (cron_group s) as [[g r]|] eqn:Eg.
    + destruct (cron_reps n (pred k) r) as [x|] eqn:Er.
      * injection Hm as <-.
        destruct (IH (pred k) r x Er ltac:(lia)) as (fs & post & Hr & Hx & Hf & Hl).
        apply cron_group_spec in Eg as (t & -> & Ht & Hs).
        destruct fs as [|u fs]; [simpl in Hl; lia|].
        exists (t :: u :: fs), post. repeat split.
        -- rewrite Hs, Hr. rewrite !str_app_assoc. reflexivity.
        -- rewrite concat_cons2, <- Hx, str_app_assoc. reflexivity.
        -- constructor; assumption.
        -- simpl in *; lia.
        -- simpl in *; lia.
      * destruct k; [|discriminate]. simpl in Hm.
        apply cron_final_spec in Hm as [Ht [r' Hr]].
        exists [m], r'. repeat split; [exact Hr | constructor; [exact Ht | constructor] | simpl; lia..].
    + destruct k; [|discriminate]. simpl in Hm.
      apply cron_final_spec in Hm as [Ht [r' Hr]].
      exists [m], r'. repeat split; [exact Hr | constructor; [exact Ht | constructor] | simpl; lia..].
Qed.

Lemma all_cron_not_ws (t : string) :
  all_cron t = true -> forall t', Str.trim_start (t ++ t') = t ++ t' \/ t = EmptyString.
Proof.
  destruct t as [|c t]; [right; reflexivity|]. simpl. intros Ht t'. left.
  apply andb_true_iff in Ht as [Hc _]. rewrite str_app_cons. simpl.
  rewrite (cron_char_not_ws c Hc). reflexivity.
Qed.

Lemma last_char_app (a b : string) :
  b <> EmptyString -> Str.last_char (a ++ b) = Str.last_char b.
Proof.
  intros Hb. induction a as [|x a IH]; [reflexivity|].
  rewrite str_app_cons. simpl. rewrite IH.
  destruct (a ++ b) eqn:E; [|reflexivity].
  destruct a; [rewrite str_app_nil_l in E; congruence
              | rewrite str_app_cons in E; discriminate].
Qed.

Lemma token_last_char (t : string) :
  cron_token t = true -> exists c, Str.last_char t = Some c /\ is_cron_char c = true.
Proof.
  unfold cron_token. intros Ht. apply andb_true_iff in Ht as [Hne Ht].
  destruct t as [|c t]; [discriminate|]. clear Hne.
  revert c Ht. induction t as [|d t IH]; intros c Ht.
  - exists c. simpl in Ht. split; [reflexivity|]. apply andb_true_iff in Ht. tauto.
  - simpl in Ht. apply andb_true_iff in Ht as [_ Ht].
    destruct (IH d Ht) as (c' & H1 & H2). exists c'. split; [exact H1|exact H2].
Qed.

Lemma trim_end_id (s : string) (c : ascii) :
  Str.last_char s = Some c -> Str.is_ws c = false -> Str.trim_end s = s.
Proof.
  revert c. induction s as [|a r IH]; intros c Hl Hc; [discriminate|].
  destruct r as [|b r].
  - simpl in *. injection Hl as ->. rewrite Hc. reflexivity.
  - change (Str.last_char (String a (String b r))) with (Str.last_char (String b r)) in Hl.
    change (Str.trim_end (String a (String b r))) with
      (match Str.trim_end (String b r) with
       | EmptyString => if Str.is_ws a then EmptyString else String a EmptyString
       | r' => String a r'
       end).
    rewrite (IH c Hl Hc). reflexivity.
Qed.

Lemma join_nonempty (fs : list string) :
  fs <> [] -> Forall (fun f => cron_token f = true) fs ->
  exists c, Str.last_char (Str.join_sp fs) = Some c /\ is_cron_char c = true.
Proof.
  intros Hne Hf. induction Hf as [|t fs Ht Hf IH]; [congruence|].
  destruct fs as [|u fs].
  - apply token_last_char. exact Ht.
  - rewrite concat_cons2, last_char_app by discriminate.
    change (" " ++ Str.join_sp (u :: fs)) with (String " " (Str.join_sp (u :: fs))).
    destruct (IH ltac:(discriminate)) as (c & H1 & H2).
    exists c. split; [|exact H2]. simpl. rewrite H1.
    destruct (Str.join_sp (u :: fs)); [discriminate|reflexivity].
Qed.

Lemma trim_join (fs : list string) :
  fs <> [] -> Forall (fun f => cron_token f = true) fs ->
  Str.trim (Str.join_sp fs) = Str.join_sp fs.
Proof.
  intros Hne Hf. unfold Str.trim.
  destruct fs as [|t fs]; [congruence|].
  assert (Hts : Str.trim_start (Str.join_sp (t :: fs)) = Str.join_sp (t :: fs)).
  { inversion Hf as [|? ? Ht _]; subst.
    unfold cron_token in Ht. apply andb_true_iff in Ht as [Hne' Ht].
    destruct fs as [|u fs].
    - destruct (all_cron_not_ws t Ht EmptyString) as [H|H].
      + rewrite str_app_nil_r in H. exact H.
      + subst. discriminate.
    - rewrite concat_cons2. destruct (all_cron_not_ws t Ht (" " ++ Str.join_sp (u :: fs))) as [H|H].
      + exact H.
      + subst. discriminate. }
  rewrite Hts.
  destruct (join_nonempty (t :: fs) Hne Hf) as (c & H1 & H2).
  apply (trim_end_id _ c H1), cron_char_not_ws, H2.
Qed.

Lemma split_ws_nonempty (s : string) : Str.split_ws s <> [].
Proof.
  induction s as [|c r IH]; simpl; [discriminate|].
  destruct (Str.is_ws c); [destruct (Str.starts_ws r); [exact IH|discriminate]|].
  destruct (Str.split_ws r); discriminate.
Qed.

Lemma split_ws_app_tok (t s : string) :
  all_cron t = true -> Str.split_ws (t ++ s) = Str.prepend t (Str.split_ws s).
Proof.
  induction t as [|c t IH]; intros Ht.
  - rewrite str_app_nil_l. pose proof (split_ws_nonempty s).
    destruct (Str.split_ws s); [congruence|reflexivity].
  - simpl in Ht. apply andb_true_iff in Ht as [Hc Ht].
    rewrite str_app_cons. simpl. rewrite (cron_char_not_ws c Hc), (IH Ht).
    destruct (Str.split_ws s); reflexivity.
Qed.

Lemma split_ws_join (fs : list string) :
  fs <> [] -> Forall (fun f => cron_token f = true) fs ->
  Str.split_ws (Str.join_sp fs) = fs.
Proof.
  intros Hne Hf. induction Hf as [|t fs Ht Hf IH]; [congruence|].
  unfold cron_token in Ht. apply andb_true_iff in Ht as [_ Ht].
  destruct fs as [|u fs].
  - change (Str.join_sp [t]) with t.
    rewrite <- (str_app_nil_r t) at 1. rewrite split_ws_app_tok by exact Ht.
    simpl. rewrite str_app_nil_r. reflexivity.
  - rewrite concat_cons2, split_ws_app_tok by exact Ht.
    inversion Hf as [|? ? Hu _]; subst.
    unfold cron_token in Hu. apply andb_true_iff in Hu as [Hune Hu].
    assert (Hst : Str.starts_ws (Str.join_sp (u :: fs)) = false).
    { destruct u as [|c u]; [discriminate|].
      simpl in Hu. apply andb_true_iff in Hu as [Hc _].
      destruct fs; simpl; apply cron_char_not_ws, Hc. }
    change (" " ++ Str.join_sp (u :: fs)) with (String " " (Str.join_sp (u :: fs))).
    simpl. rewrite Hst, (IH ltac:(discriminate)). simpl. rewrite str_app_nil_r. reflexivity.
Qed.

(** [cron_search] finds the leftmost start position at which the pattern
    matches. *)
Lemma cron_search_spec (s m : string) :
  cron_search s = Some m ->
  exists pre post, s = pre ++ m ++ post /\ cron_match_at (m ++ post) = Some m /\
    forall p q, s = p ++ q -> (String.length p < String.length pre)%nat ->
                cron_match_at q = None.
Proof.
  revert m. induction s as [|c r IH]; intros m Hs.
  - vm_compute in Hs. discriminate Hs.
  - change (cron_search (String c r)) with
      (match cron_match_at (String c r) with
       | Some m => Some m
       | None => cron_search r
       end) in Hs.
    destruct (cron_match_at (String c r)) as [m'|] eqn:E.
    + injection Hs as <-.
      destruct (cron_reps_spec 5 4 _ _ E ltac:(lia)) as (fs & post & Hp & _).
      exists EmptyString, post. rewrite <- Hp. split; [reflexivity|]. split; [exact E|].
      intros p q _ Hl. simpl in Hl. lia.
    + destruct (IH m Hs) as (pre & post & Hr & Hm & Hleft).
      exists (String c pre), post. split; [rewrite Hr; reflexivity|]. split; [exact Hm|].
      intros p q Hpq Hl. destruct p as [|c' p].
      * rewrite str_app_nil_l in Hpq. subst q. exact E.
      * rewrite str_app_cons in Hpq. injection Hpq as <- Hpq.
        apply (Hleft p q Hpq). simpl in Hl. lia.
Qed.

End CronFacts.

(** C4 (as the code has it).  The extractor returns the leftmost match of
    [([0-9*/,-]+ ){4,5}[0-9*/,-]+]: no earlier start position matches; the
    match is 5 or 6 fields of class characters joined by single spaces
    (and may begin or end inside a longer word); with 6 fields the first
    is dropped, with 5 the match is returned as it is; with no match the
    result is [null] and [createSession] uses ["0 0 * * *"]; otherwise
    the result is the session's default schedule. *)
Theorem extractCron_regex_match (fileName content : string) :
  (Cron.cron_search content = None ->
     Cron.extractCronFromContent content = None /\
     option_map schedule (defaultParams (SessionManager.new_session fileName content)) =
       Some "0 0 * * *") /\
  (forall m, Cron.cron_search content = Some m ->
     exists pre post fs,
       content = pre ++ m ++ post /\
       (forall p q, content = p ++ q -> (String.length p < String.length pre)%nat ->
                    Cron.cron_match_at q = None) /\
       m = Str.join_sp fs /\ Forall (fun f => Cron.cron_token f = true) fs /\
       ((length fs = 5%nat /\ Cron.extractCronFromContent content = Some m) \/
        (length fs = 6%nat /\
         Cron.extractCronFromContent content = Some (Str.join_sp (tl fs)))) /\
       (forall r, Cron.extractCronFromContent content = Some r ->
          option_map schedule (defaultParams (SessionManager.new_session fileName content)) =
            Some r)).
Proof.
  split.
  - intros H.
    assert (He : Cron.extractCronFromContent content = None)
      by (unfold Cron.extractCronFromContent; rewrite H; reflexivity).
    split; [exact He|]. unfold SessionManager.new_session. simpl. rewrite He. reflexivity.
  - intros m Hm.
    destruct (CronFacts.cron_search_spec content m Hm) as (pre & post & Hc & Hma & Hleft).
    destruct (CronFacts.cron_reps_spec 5 4 _ _ Hma ltac:(lia)) as (fs & post' & _ & Hj & Hf & Hl).
    assert (Hne : fs <> []) by (intros ->; simpl in Hl; lia).
    assert (Hext : Cron.extractCronFromContent content =
                   Some (if (length fs =? 6)%nat then Str.join_sp (tl fs) else m)).
    { unfold Cron.extractCronFromContent. rewrite Hm, Hj.
      rewrite (CronFacts.trim_join fs Hne Hf), (CronFacts.split_ws_join fs Hne Hf).
      replace (5 <=? length fs)%nat with true by (symmetry; apply Nat.leb_le; lia).
      reflexivity. }
    exists pre, post, fs. split; [exact Hc|]. split; [exact Hleft|].
    split; [exact Hj|]. split; [exact Hf|]. split.
    + destruct (Nat.eqb_spec (length fs) 6) as [H6|H6].
      * right. split; [exact H6|]. exact Hext.
      * left. split; [lia|]. exact Hext.
    + intros r Hr. unfold SessionManager.new_session. simpl. rewrite Hr.
      assert (Hrne : exists c, Str.last_char r = Some c).
      { rewrite Hext in Hr. injection Hr as <-.
        destruct (Nat.eqb_spec (length fs) 6) as [H6|H6].
        - destruct fs as [|f0 fs]; [congruence|]. simpl in H6 |- *.
          inversion Hf as [|? ? _ Hf']; subst.
          destruct (CronFacts.join_nonempty fs ltac:(intros ->; discriminate) Hf')
            as (c & Hc' & _).
          exists c. exact Hc'.
        - destruct (CronFacts.join_nonempty fs Hne Hf) as (c & Hc' & _).
          exists c. rewrite Hj. exact Hc'. }
      destruct Hrne as [c Hc']. destruct r; [discriminate|reflexivity].
Qed.

(** C4 (the claim as stated fails).  Five cron fields separated by tabs
    are white-space separated, yet the extractor finds nothing (the
    pattern's separator is one literal space); and a run whose first
    white-space separated token is not a cron field ([x1]) still yields a
    5-field result, because the match starts inside the word. *)
Lemma extractCron_whitespace_counterexample :
  Str.split_ws Inputs.cron_tabbed = ["0"; "0"; "*"; "*"; "*"] /\
  forallb Cron.cron_token (Str.split_ws Inputs.cron_tabbed) = true /\
  Cron.extractCronFromContent Inputs.cron_tabbed = None /\
  Str.split_ws Inputs.cron_in_word = ["x1"; "2"; "3"; "4"; "5"] /\
  Cron.cron_token "x1" = false /\
  Cron.extractCronFromContent Inputs.cron_in_word = Some "1 2 3 4 5".
Proof. vm_compute. repeat split. Qed.

(** A witness for C4, on tab-separated fields, where there is no match. *)
Lemma extractCron_regex_match_witness :
  Cron.cron_search Inputs.cron_tabbed = None /\
  Cron.extractCronFromContent Inputs.cron_tabbed = None /\
  option_map schedule
    (defaultParams (SessionManager.new_session "t.py" Inputs.cron_tabbed)) =
    Some "0 0 * * *".
Proof.
  assert (H : Cron.cron_search Inputs.cron_tabbed = None) by (vm_compute; reflexivity).
  split; [exact H|]. exact (proj1 (extractCron_regex_match "t.py" Inputs.cron_tabbed) H).
Defined.

Module NameFacts.

Lemma first_segment_cons (c : ascii) (r : string) :
  SessionManager.first_segment (String c r) =
  if Ascii.eqb c "."%char then EmptyString
  else String c (SessionManager.first_segment r).
Proof.
  unfold SessionManager.first_segment. simpl.
  destruct (Ascii.eqb c "."%char); [reflexivity|].
  destruct (Str.split_on "."%char r); reflexivity.
Qed.

Lemma first_segment_spec (f : string) :
  exists rest, f = SessionManager.first_segment f ++ rest /\
    (rest = EmptyString \/ exists r', rest = String "."%char r') /\
    Str.has_char "."%char (SessionManager.first_segment f) = false.
Proof.
  induction f as [|c r IH].
  - exists EmptyString. split; [reflexivity|]. split; [left; reflexivity|reflexivity].
  - rewrite first_segment_cons.
    destruct (Ascii.eqb_spec c "."%char) as [->|Hc].
    + exists (String "."%char r). split; [reflexivity|].
      split; [right; eexists; reflexivity|reflexivity].
    + destruct IH as (rest & Hr & Hrest & Hd).
      exists rest. split.
      * rewrite CronFacts.str_app_cons, <- Hr. reflexivity.
      * split; [exact Hrest|]. simpl. rewrite Hd.
        destruct (Ascii.eqb_spec c "."%char); [contradiction|reflexivity].
Qed.

(** The extractor never returns an empty string, so [or_default] keeps it. *)
Lemma extract_or_default (c d : string) :
  SessionManager.or_default (Cron.extractCronFromContent c) d =
  match Cron.extractCronFromContent c with Some r => r | None => d end.
Proof.
  unfold Cron.extractCronFromContent.
  destruct (Cron.cron_search c) as [m|] eqn:Hm; [|reflexivity].
  destruct (CronFacts.cron_search_spec c m Hm) as (pre & post & _ & Hma & _).
  destruct (CronFacts.cron_reps_spec 5 4 _ _ Hma ltac:(lia)) as (fs & post' & _ & Hj & Hf & Hl).
  assert (Hne : fs <> []) by (intros ->; simpl in Hl; lia).
  rewrite Hj, (CronFacts.trim_join fs Hne Hf), (CronFacts.split_ws_join fs Hne Hf).
  replace (5 <=? length fs)%nat with true by (symmetry; apply Nat.leb_le; lia).
  assert (Hx : exists ch, Str.last_char
            (if (length fs =? 6)%nat then Str.join_sp (tl fs) else Str.join_sp fs) = Some ch).
  { destruct (length fs =? 6)%nat eqn:H6.
    - apply Nat.eqb_eq in H6.
      destruct fs as [|f0 fs]; [congruence|]. simpl in H6 |- *.
      inversion Hf as [|? ? _ Hf']; subst.
      destruct (CronFacts.join_nonempty fs ltac:(intros ->; discriminate) Hf')
        as (ch & Hc' & _).
      exists ch. exact Hc'.
    - destruct (CronFacts.join_nonempty fs Hne Hf) as (ch & Hc' & _).
      exists ch. exact Hc'. }
  destruct Hx as [ch Hx].
  destruct (if (length fs =? 6)%nat then Str.join_sp (tl fs) else Str.join_sp fs);
    [discriminate|reflexivity].
Qed.

End NameFacts.

(** C5 (as the code has it).  [createSession] stores, under the user's id,
    a session in stage [uploaded] with the given file name and content, no
    candidate parameters and no timer, whose default parameters are: name
    the part of the file name before its FIRST ['.'] (the whole name when
    there is none), command ["task "] followed by the full file name, and
    schedule the extractor's result, or ["0 0 * * *"] when it finds none.
    Uploading [demo.py] with ["0 0 * * * python demo.py"] gives the
    defaults name [demo], command ["task demo.py"], schedule ["0 0 * * *"]. *)
Theorem createSession_defaults (w : world) (uid : Z) (f c : string) :
  (let (s, w') := SessionManager.createSession uid f c w in
   sessions w' !! uid = Some s /\ stage_of s = uploaded /\
   fileName s = f /\ fileContent s = c /\
   modifiedParams s = None /\ timeoutId s = None /\
   defaultParams s =
     Some (mkParams (SessionManager.first_segment f) ("task " ++ f)
             (match Cron.extractCronFromContent c with
              | Some r => r
              | None => "0 0 * * *"
              end))) /\
  (exists rest, f = SessionManager.first_segment f ++ rest /\
     (rest = EmptyString \/ exists r', rest = String "."%char r') /\
     Str.has_char "."%char (SessionManager.first_segment f) = false) /\
  defaultParams (fst (SessionManager.createSession uid "demo.py" Inputs.demo_content w)) =
    Some (mkParams "demo" "task demo.py" "0 0 * * *").
Proof.
  split; [|split].
  - rewrite SessionFacts.createSession_world. simpl.
    rewrite lookup_insert_eq.
    repeat split.
    unfold SessionManager.new_session. simpl.
    rewrite NameFacts.extract_or_default. reflexivity.
  - apply NameFacts.first_segment_spec.
  - vm_compute. reflexivity.
Qed.

(** C5 (the claim as stated fails).  For [my.task.py] the name is [my],
    not the file name without its extension, [my.task]. *)
Lemma createSession_name_counterexample :
  defaultParams (fst (SessionManager.createSession 7 "my.task.py" "echo hi"
                        (mkWorld ∅ ∅ 0))) =
    Some (mkParams "my" "task my.task.py" "0 0 * * *") /\
  "my" <> "my.task".
Proof. split; [vm_compute; reflexivity | discriminate]. Qed.

(* ----------------------------------------------------------------- *)
(** *** Further properties of the code *)

Module ExtractFacts.
Import Cron.

Lemma cron_run_tok (t s : string) :
  all_cron t = true ->
  match s with EmptyString => True | String c _ => is_cron_char c = false end ->
  cron_run (t ++ s) = (t, s).
Proof.
  intros Ht Hs. induction t as [|c t IH].
  - rewrite CronFacts.str_app_nil_l. destruct s as [|c r]; [reflexivity|].
    simpl. rewrite Hs. reflexivity.
  - simpl in Ht. apply andb_true_iff in Ht as [Hc Ht].
    rewrite CronFacts.str_app_cons. simpl. rewrite Hc, (IH Ht). reflexivity.
Qed.

Lemma cron_reps_join (fs : list string) (n k : nat) :
  Forall (fun f => cron_token f = true) fs -> fs <> [] ->
  (k < length fs)%nat -> (length fs <= S n)%nat ->
  cron_reps n k (Str.join_sp fs) = Some (Str.join_sp fs).
Proof.
  intros Hf. revert n k. induction Hf as [|t fs Ht Hf IH]; intros n k Hne Hk Hn;
    [congruence|].
  pose proof Ht as Ht'. unfold cron_token in Ht'.
  apply andb_true_iff in Ht' as [Htne Hta].
  destruct t as [|c0 t0]; [discriminate|].
  destruct fs as [|u fs].
  - change (Str.join_sp [String c0 t0]) with (String c0 t0).
    simpl in Hk. assert (k = 0)%nat as -> by lia.
    assert (Hr : cron_run (String c0 t0) = (String c0 t0, EmptyString)).
    { rewrite <- (CronFacts.str_app_nil_r (String c0 t0)) at 1.
      apply cron_run_tok; [exact Hta|exact I]. }
    destruct n as [|n]; simpl.
    + unfold cron_final. rewrite Hr. reflexivity.
    + unfold cron_group, cron_final. rewrite Hr. reflexivity.
  - destruct n as [|n]; [simpl in Hn; lia|].
    rewrite CronFacts.concat_cons2.
    assert (Hg : cron_group (String c0 t0 ++ " " ++ Str.join_sp (u :: fs)) =
                 Some (String c0 t0 ++ " ", Str.join_sp (u :: fs))).
    { unfold cron_group. rewrite cron_run_tok by (exact Hta || reflexivity).
      change (" " ++ Str.join_sp (u :: fs)) with (String " " (Str.join_sp (u :: fs))).
      reflexivity. }
    simpl. rewrite Hg.
    rewrite (IH n (pred k) ltac:(discriminate)) by (simpl in *; lia).
    rewrite CronFacts.str_app_assoc. reflexivity.
Qed.

(** The result of the extractor: five fields joined by single spaces,
    found in the content. *)
Lemma extract_shape (c r : string) :
  extractCronFromContent c = Some r ->
  exists pre post fs, c = pre ++ r ++ post /\ r = Str.join_sp fs /\
    length fs = 5%nat /\ Forall (fun f => cron_token f = true) fs.
Proof.
  unfold extractCronFromContent. intros H.
  destruct (cron_search c) as [m|] eqn:Hm; [|discriminate].
  destruct (CronFacts.cron_search_spec c m Hm) as (pre & post & Hc & Hma & _).
  destruct (CronFacts.cron_reps_spec 5 4 _ _ Hma ltac:(lia)) as (fs & post' & _ & Hj & Hf & Hl).
  assert (Hne : fs <> []) by (intros ->; simpl in Hl; lia).
  rewrite Hj, (CronFacts.trim_join fs Hne Hf), (CronFacts.split_ws_join fs Hne Hf) in H.
  replace (5 <=? length fs)%nat with true in H by (symmetry; apply Nat.leb_le; lia).
  injection H as <-.
  destruct (Nat.eqb_spec (length fs) 6) as [H6|H6].
  - destruct fs as [|f0 fs]; [congruence|].
    pose proof (Forall_inv_tail Hf) as Hf'.
    destruct fs as [|u fs]; [simpl in H6; lia|].
    exists (pre ++ f0 ++ " "), post, (u :: fs).
    split; [|split; [reflexivity|split; [simpl in *; lia|exact Hf']]].
    rewrite Hc, Hj, CronFacts.concat_cons2, !CronFacts.str_app_assoc. reflexivity.
  - exists pre, post, fs. split; [rewrite Hc, Hj; reflexivity|].
    split; [reflexivity|]. split; [lia|exact Hf].
Qed.

Lemma search_join (fs : list string) :
  Forall (fun f => cron_token f = true) fs -> length fs = 5%nat ->
  cron_search (Str.join_sp fs) = Some (Str.join_sp fs).
Proof.
  intros Hf Hl.
  assert (Hne : fs <> []) by (intros ->; discriminate).
  assert (Hma : cron_match_at (Str.join_sp fs) = Some (Str.join_sp fs))
    by (apply cron_reps_join; [exact Hf|exact Hne|lia|lia]).
  destruct (Str.join_sp fs) as [|c r] eqn:E.
  - destruct (CronFacts.join_nonempty fs Hne Hf) as (ch & Hch & _).
    rewrite E in Hch. discriminate.
  - change (cron_search (String c r)) with
      (match cron_match_at (String c r) with
       | Some m => Some m
       | None => match String c r with EmptyString => None | String _ r' => cron_search r' end
       end).
    rewrite Hma. reflexivity.
Qed.

End ExtractFacts.

Module EscapeFacts.

Lemma escape_app (a b : string) : escapeHtml (a ++ b) = escapeHtml a ++ escapeHtml b.
Proof.
  induction a as [|c a IH]; [reflexivity|].
  rewrite CronFacts.str_app_cons. simpl. rewrite IH, CronFacts.str_app_assoc. reflexivity.
Qed.

Lemma has_char_app (c : ascii) (a b : string) :
  Str.has_char c (a ++ b) = Str.has_char c a || Str.has_char c b.
Proof.
  induction a as [|d a IH]; [reflexivity|].
  rewrite CronFacts.str_app_cons. simpl. rewrite IH, orb_assoc. reflexivity.
Qed.

Definition html_special (c : ascii) : bool :=
  Ascii.eqb c "&" || Ascii.eqb c "<" || Ascii.eqb c ">" || Ascii.eqb c (ascii_of_nat 34)
  || Ascii.eqb c "'".

Lemma escape_char_cases (c : ascii) :
  (html_special c = false /\ escapeHtml_char c = String c EmptyString) \/
  (c = "&"%char /\ escapeHtml_char c = "&amp;") \/
  (c = "<"%char /\ escapeHtml_char c = "&lt;") \/
  (c = ">"%char /\ escapeHtml_char c = "&gt;") \/
  (c = ascii_of_nat 34 /\ escapeHtml_char c = "&quot;") \/
  (c = "'"%char /\ escapeHtml_char c = "&#39;").
Proof.
  unfold escapeHtml_char, html_special.
  destruct (Ascii.eqb_spec c "&") as [->|H1]; [right; left; split; reflexivity|].
  destruct (Ascii.eqb_spec c "<") as [->|H2]; [do 2 right; left; split; reflexivity|].
  destruct (Ascii.eqb_spec c ">") as [->|H3]; [do 3 right; left; split; reflexivity|].
  destruct (Ascii.eqb_spec c (ascii_of_nat 34)) as [->|H4];
    [do 4 right; left; split; reflexivity|].
  destruct (Ascii.eqb_spec c "'") as [->|H5]; [do 5 right; split; reflexivity|].
  left. split; reflexivity.
Qed.

(** A decoder of the five entities, to show that escaping loses nothing. *)
Fixpoint unescape (s : string) : string :=
  match s with
  | String "&" (String "a" (String "m" (String "p" (String ";" r)))) =>
      String "&" (unescape r)
  | String "&" (String "l" (String "t" (String ";" r))) => String "<" (unescape r)
  | String "&" (String "g" (String "t" (String ";" r))) => String ">" (unescape r)
  | String "&" (String "q" (String "u" (String "o" (String "t" (String ";" r))))) =>
      String (ascii_of_nat 34) (unescape r)
  | String "&" (String "#" (String "3" (String "9" (String ";" r)))) =>
      String "'" (unescape r)
  | String c r => String c (unescape r)
  | EmptyString => EmptyString
  end%char.

Lemma unescape_plain (c : ascii) (r : string) :
  html_special c = false -> unescape (String c r) = String c (unescape r).
Proof.
  destruct c as [[] [] [] [] [] [] [] []]; intros H; try reflexivity;
    vm_compute in H; discriminate H.
Qed.

Lemma unescape_escape (s : string) : unescape (escapeHtml s) = s.
Proof.
  induction s as [|c s IH]; [reflexivity|].
  change (escapeHtml (String c s)) with (escapeHtml_char c ++ escapeHtml s).
  destruct (escape_char_cases c)
    as [[Hs ->]|[[-> ->]|[[-> ->]|[[-> ->]|[[-> ->]|[-> ->]]]]]];
    rewrite ?CronFacts.str_app_cons, ?CronFacts.str_app_nil_l;
    [rewrite (unescape_plain c _ Hs), IH; reflexivity | ..];
    simpl; rewrite IH; reflexivity.
Qed.

End EscapeFacts.

(** X1.  Whatever the extractor returns is exactly five cron fields (non-
    empty runs of [[0-9*/,-]]) joined by single spaces, and it occurs as
    a piece of the file content. *)
Theorem extract_result_five_fields (content r : string) :
  Cron.extractCronFromContent content = Some r ->
  exists pre post fs, content = pre ++ r ++ post /\ r = Str.join_sp fs /\
    length fs = 5%nat /\ Forall (fun f => Cron.cron_token f = true) fs.
Proof. apply ExtractFacts.extract_shape. Qed.

Lemma extract_result_five_fields_witness :
  Cron.extractCronFromContent "0 0 * * * * run" = Some "0 * * * *" /\
  exists pre post fs, "0 0 * * * * run" = pre ++ "0 * * * *" ++ post /\
    "0 * * * *" = Str.join_sp fs /\
    length fs = 5%nat /\ Forall (fun f => Cron.cron_token f = true) fs.
Proof.
  assert (H : Cron.extractCronFromContent "0 0 * * * * run" = Some "0 * * * *")
    by (vm_compute; reflexivity).
  split; [exact H|]. exact (extract_result_five_fields _ _ H).
Defined.

(** X2.  The extractor is idempotent: run on its own result it returns
    that result again (a schedule taken from a file is recognised as it
    is). *)
Theorem extract_idempotent (content r : string) :
  Cron.extractCronFromContent content = Some r ->
  Cron.extractCronFromContent r = Some r.
Proof.
  intros H. destruct (ExtractFacts.extract_shape content r H) as (pre & post & fs & _ & -> & Hl & Hf).
  assert (Hne : fs <> []) by (intros ->; discriminate).
  unfold Cron.extractCronFromContent.
  rewrite (ExtractFacts.search_join fs Hf Hl), (CronFacts.trim_join fs Hne Hf),
    (CronFacts.split_ws_join fs Hne Hf), Hl. reflexivity.
Qed.

Lemma extract_idempotent_witness :
  Cron.extractCronFromContent Inputs.demo_content = Some "0 0 * * *" /\
  Cron.extractCronFromContent "0 0 * * *" = Some "0 0 * * *".
Proof.
  assert (H : Cron.extractCronFromContent Inputs.demo_content = Some "0 0 * * *")
    by (vm_compute; reflexivity).
  split; [exact H|]. exact (extract_idempotent _ _ H).
Defined.

Module AmpFacts.

Lemma escape_amp (s : string) : amp_starts_entity (escapeHtml s) = true.
Proof.
  induction s as [|c s IH]; [reflexivity|]. simpl.
  destruct (EscapeFacts.escape_char_cases c)
    as [[Hs ->]|[[-> ->]|[[-> ->]|[[-> ->]|[[-> ->]|[-> ->]]]]]];
    rewrite ?CronFacts.str_app_cons, ?CronFacts.str_app_nil_l; simpl; rewrite ?IH;
    try (destruct (escapeHtml s); reflexivity).
  unfold EscapeFacts.html_special in Hs.
  apply orb_false_iff in Hs as [Hs _]. apply orb_false_iff in Hs as [Hs _].
  apply orb_false_iff in Hs as [Hs _]. apply orb_false_iff in Hs as [Hs _].
  rewrite Hs. reflexivity.
Qed.

End AmpFacts.

(** X3.  The output of [escapeHtml] contains none of the characters
    [<], [>], the double quote and ['], and every [&] it contains starts
    one of the five entities [&amp;], [&lt;], [&gt;], [&quot;], [&#39;]. *)
Theorem escapeHtml_no_markup (s : string) :
  (Str.has_char "<" (escapeHtml s) = false /\
   Str.has_char ">" (escapeHtml s) = false /\
   Str.has_char (ascii_of_nat 34) (escapeHtml s) = false /\
   Str.has_char "'" (escapeHtml s) = false) /\
  amp_starts_entity (escapeHtml s) = true.
Proof.
  split; [|apply AmpFacts.escape_amp].
  induction s as [|c s IH]; [repeat split|].
  simpl. rewrite !EscapeFacts.has_char_app.
  destruct IH as (H1 & H2 & H3 & H4). rewrite H1, H2, H3, H4, !orb_false_r.
  destruct (EscapeFacts.escape_char_cases c)
    as [[Hs ->]|[[-> ->]|[[-> ->]|[[-> ->]|[[-> ->]|[-> ->]]]]]];
    try (repeat split; reflexivity).
  unfold EscapeFacts.html_special in Hs.
  apply orb_false_iff in Hs as [Hs H5]. apply orb_false_iff in Hs as [Hs H4'].
  apply orb_false_iff in Hs as [Hs H3']. apply orb_false_iff in Hs as [_ H2'].
  simpl. rewrite !orb_false_r.
  rewrite H2', H3', H4', H5. repeat split.
Qed.

(** X4.  [escapeHtml] is injective: two different texts never give the
    same escaped text, so the escaped JSON always determines the JSON. *)
Theorem escapeHtml_injective (a b : string) :
  escapeHtml a = escapeHtml b -> a = b.
Proof.
  intros H. rewrite <- (EscapeFacts.unescape_escape a), <- (EscapeFacts.unescape_escape b), H.
  reflexivity.
Qed.

(** X5.  [escapeHtml] works character by character (it maps [a ++ b] to
    the concatenation of the two escaped texts), and it leaves a text
    with none of [&], [<], [>], the double quote and ['] unchanged. *)
Theorem escapeHtml_homomorphic (a b : string) :
  escapeHtml (a ++ b) = escapeHtml a ++ escapeHtml b /\
  (Str.has_char "&" a = false -> Str.has_char "<" a = false ->
   Str.has_char ">" a = false -> Str.has_char (ascii_of_nat 34) a = false ->
   Str.has_char "'" a = false -> escapeHtml a = a).
Proof.
  split; [apply EscapeFacts.escape_app|].
  induction a as [|c a IH]; [reflexivity|]. simpl.
  intros H1 H2 H3 H4 H5.
  apply orb_false_iff in H1 as [E1 H1], H2 as [E2 H2], H3 as [E3 H3], H4 as [E4 H4],
    H5 as [E5 H5].
  rewrite (IH H1 H2 H3 H4 H5).
  unfold escapeHtml_char. rewrite E1, E2, E3, E4, E5. reflexivity.
Qed.

Lemma escapeHtml_homomorphic_witness :
  escapeHtml "task demo.py" = "task demo.py".
Proof.
  apply (proj2 (escapeHtml_homomorphic "task demo.py" EmptyString));
    vm_compute; reflexivity.
Defined.

Module StoreFacts.
Import SessionManager.

(** A field that no update writes keeps its value through [Object.assign]. *)
Lemma apply_upds_keep {A} (f : session -> A) (k : string)
    (Hk : forall s u, upd_key u <> k -> f (apply_upd s u) = f s) (us : list upd) (s : session) :
  ~ In k (map upd_key us) -> f (fold_left apply_upd us s) = f s.
Proof.
  revert s. induction us as [|u us IH]; intros s Hn; [reflexivity|].
  simpl in *. rewrite IH by tauto. apply Hk. intros H. apply Hn. left. exact H.
Qed.

Ltac keep_field := intros ? []; simpl; intros; first [reflexivity | congruence].

End StoreFacts.

(** X6.  [updateSession] touches only the given user's session: every
    other session, the pending timers and the next timer handle stay as
    they are, and for a user without a session it does nothing.  In the
    updated session, each field that no property of [updates] names keeps
    its value; so the updates of the handlers, which name only [stage] and
    [modifiedParams], keep the file, its defaults and the timer handle. *)
Theorem updateSession_frame (w : world) (uid : Z) (us : list upd) :
  let w' := SessionManager.updateSession uid us w in
  (forall u, u <> uid -> sessions w' !! u = sessions w !! u) /\
  timers w' = timers w /\ next_timer w' = next_timer w /\
  (sessions w !! uid = None -> w' = w) /\
  (forall s, sessions w !! uid = Some s ->
     exists s', sessions w' !! uid = Some s' /\
       (~ In "fileName" (map upd_key us) -> fileName s' = fileName s) /\
       (~ In "fileContent" (map upd_key us) -> fileContent s' = fileContent s) /\
       (~ In "stage" (map upd_key us) -> stage_of s' = stage_of s) /\
       (~ In "defaultParams" (map upd_key us) -> defaultParams s' = defaultParams s) /\
       (~ In "modifiedParams" (map upd_key us) -> modifiedParams s' = modifiedParams s) /\
       (~ In "timeoutId" (map upd_key us) -> timeoutId s' = timeoutId s)).
Proof.
  unfold SessionManager.updateSession.
  destruct (sessions w !! uid) as [s|] eqn:E; simpl.
  - split; [intros u Hu; apply lookup_insert_ne; congruence|].
    split; [reflexivity|]. split; [reflexivity|]. split; [discriminate|].
    intros s0 Hs0. injection Hs0 as <-.
    exists (fold_left apply_upd us s). split; [apply lookup_insert_eq|].
    repeat split; apply StoreFacts.apply_upds_keep; StoreFacts.keep_field.
  - split; [reflexivity|]. split; [reflexivity|]. split; [reflexivity|].
    split; [reflexivity|discriminate].
Qed.

Lemma updateSession_frame_witness :
  exists s', sessions (SessionManager.updateSession 7 [UStage confirm_params] Inputs.w_modify)
               !! 7%Z = Some s' /\ timeoutId s' = Some 0%nat.
Proof.
  destruct (proj2 (proj2 (proj2 (proj2 (updateSession_frame Inputs.w_modify 7
              [UStage confirm_params]))))
              Inputs.s_modify ltac:(vm_compute; reflexivity)) as (s' & Hs & _ & _ & _ & _ & _ & Ht).
  exists s'. split; [exact Hs|]. rewrite Ht; [reflexivity|]. simpl. intuition discriminate.
Defined.

(** X8.  When the session's recorded timer is the only pending timer of
    the user, [deleteSession] leaves no pending timer for that user: the
    session's expiry can no longer fire. *)
Theorem deleteSession_cancels_user_timers (w : world) (uid : Z) :
  sole_timer uid w ->
  forall t tm, timers (SessionManager.deleteSession uid w) !! t = Some tm ->
               t_user tm <> uid.
Proof.
  intros Hsole t tm Ht Hu.
  destruct (sessions w !! uid) as [s|] eqn:E.
  - rewrite (SessionFacts.deleteSession_present w uid s E) in Ht. unfold cleared in Ht.
    simpl in Ht.
    destruct (timeoutId s) as [t0|] eqn:Et.
    + destruct (decide (t = t0)) as [->|Hne].
      * rewrite lookup_delete_eq in Ht. discriminate.
      * rewrite lookup_delete_ne in Ht by congruence.
        destruct (Hsole t tm Ht Hu) as (s' & Hs' & Ht').
        rewrite E in Hs'. injection Hs' as <-. congruence.
    + destruct (Hsole t tm Ht Hu) as (s' & Hs' & Ht').
      rewrite E in Hs'. injection Hs' as <-. congruence.
  - rewrite (SessionFacts.deleteSession_absent w uid E) in Ht.
    destruct (Hsole t tm Ht Hu) as (s' & Hs' & _). congruence.
Qed.

Lemma deleteSession_cancels_user_timers_witness :
  sole_timer 7 Inputs.c1_w2 /\
  timers (SessionManager.deleteSession 7 Inputs.c1_w2) !! 0%nat = None.
Proof.
  assert (H : sole_timer 7 Inputs.c1_w2).
  { intros t tm Ht Hu.
    assert (Ht0 : timers Inputs.c1_w2 = <[0%nat := mkTimer 7 120000 msg_timeout]> ∅)
      by reflexivity.
    rewrite Ht0 in Ht.
    destruct (decide (t = 0%nat)) as [->|Hne].
    - eexists. split; reflexivity.
    - rewrite lookup_insert_ne in Ht by congruence. discriminate. }
  split; [exact H|].
  destruct (timers (SessionManager.deleteSession 7 Inputs.c1_w2) !! 0%nat) as [tm|] eqn:E;
    [|reflexivity].
  exfalso. apply (deleteSession_cancels_user_timers _ _ H _ _ E).
  vm_compute in E. discriminate E.
Defined.

(** X10.  Ending the session ([handleEndSession]) deletes it and replies
    once; its expiry timer, if it had one, is cancelled, so firing that
    timer afterwards does nothing at all. *)
Theorem endSession_then_timer_inert (e : env) (w : world) (uid : Z) (s : session)
    (t : nat) :
  sessions w !! uid = Some s -> timeoutId s = Some t ->
  run (FileProcessor.handleEndSession uid) e w =
    (Ok tt, SessionManager.deleteSession uid w, [Reply "会话已结束。" []]) /\
  run (fire_timer t) e (SessionManager.deleteSession uid w) =
    (Ok tt, SessionManager.deleteSession uid w, []).
Proof.
  intros Hs Ht. split; [reflexivity|].
  rewrite (SessionFacts.deleteSession_present w uid s Hs). unfold cleared. rewrite Ht.
  unfold run, fire_timer, gets, mbind, M_bind. simpl. rewrite lookup_delete_eq. reflexivity.
Qed.

Lemma endSession_then_timer_inert_witness :
  run (fire_timer 0) (Inputs.test_env None None) (SessionManager.deleteSession 7 Inputs.w_modify) =
    (Ok tt, SessionManager.deleteSession 7 Inputs.w_modify, []).
Proof.
  apply (proj2 (endSession_then_timer_inert (Inputs.test_env None None) Inputs.w_modify 7
                  Inputs.s_modify 0 ltac:(vm_compute; reflexivity) eq_refl)).
Defined.

(** Entering [handleCallbackQuery] for a user with a session, up to the
    dispatch on [data]. *)
Ltac cb_enter Hu Hs :=
  unfold run, FileProcessor.handleCallbackQuery, Str.startsWith;
  rewrite ?CronFacts.str_app_cons;
  rewrite (HandlerFacts.user_id_some _ Hu); simpl;
  unfold try_catch, mbind, M_bind, FileProcessor.getSession_m, gets,
    SessionManager.getSession;
  rewrite Hs; simpl.

(** X11.  [handleCallbackQuery] with empty data does nothing; without a
    usable user id it only answers the query with an error; for a user
    without a session it answers and replies that the session expired.
    In none of these cases does the world change. *)
Theorem callback_without_session (e : env) (w : world) (from : option Z) (data : string) :
  run (FileProcessor.handleCallbackQuery from "") e w = (Ok tt, w, []) /\
  (FileProcessor.user_id from = None -> data <> "" ->
     run (FileProcessor.handleCallbackQuery from data) e w =
       (Ok tt, w, [AnswerCb (Some "无法获取用户ID")])) /\
  (forall uid, FileProcessor.user_id from = Some uid -> sessions w !! uid = None ->
     data <> "" ->
     run (FileProcessor.handleCallbackQuery from data) e w =
       (Ok tt, w, [AnswerCb (Some msg_expired); Reply msg_expired []])).
Proof.
  split; [reflexivity|]. split.
  - intros Hu Hd. apply String.eqb_neq in Hd.
    unfold run, FileProcessor.handleCallbackQuery. rewrite Hd, Hu. reflexivity.
  - intros uid Hu Hs Hd. apply String.eqb_neq in Hd.
    unfold run, FileProcessor.handleCallbackQuery. rewrite Hd, Hu.
    unfold try_catch, mbind, M_bind, FileProcessor.getSession_m, gets,
      SessionManager.getSession.
    rewrite Hs. reflexivity.
Qed.

Lemma callback_without_session_witness :
  run (FileProcessor.handleCallbackQuery (Some 8%Z) "confirm_params")
      (Inputs.test_env None None) Inputs.c1_w1 =
    (Ok tt, Inputs.c1_w1, [AnswerCb (Some msg_expired); Reply msg_expired []]).
Proof.
  apply (proj2 (proj2 (callback_without_session (Inputs.test_env None None) Inputs.c1_w1
                         (Some 8%Z) "confirm_params")) 8%Z);
    [reflexivity | reflexivity | discriminate].
Defined.

(** X12.  Callback data that matches none of the eight actions, from a
    user with a session, is ignored: the query is answered and nothing
    else happens. *)
Theorem callback_unknown_ignored (e : env) (w : world) (uid : Z) (s : session)
    (data : string) :
  uid <> 0%Z -> sessions w !! uid = Some s -> data <> "" ->
  Str.startsWith data "create_task_" = false ->
  Str.startsWith data "upload_only_" = false ->
  Str.startsWith data "end_session_" = false ->
  ~ In data ["modify_params_yes"; "modify_params_no"; "confirm_params"; "edit_params";
             "cancel_create"] ->
  run (FileProcessor.handleCallbackQuery (Some uid) data) e w = (Ok tt, w, [AnswerCb None]).
Proof.
  intros Hu Hs Hd H1 H2 H3 Hn.
  apply String.eqb_neq in Hd.
  assert (E : forall x, In x ["modify_params_yes"; "modify_params_no"; "confirm_params";
                             "edit_params"; "cancel_create"] -> String.eqb data x = false).
  { intros x Hx. apply String.eqb_neq. intros ->. exact (Hn Hx). }
  unfold run, FileProcessor.handleCallbackQuery. rewrite Hd.
  rewrite (HandlerFacts.user_id_some _ Hu). simpl.
  unfold try_catch, mbind, M_bind, FileProcessor.getSession_m, gets,
    SessionManager.getSession.
  rewrite Hs, H1, H2, H3.
  rewrite !E by (simpl; tauto). reflexivity.
Qed.

Lemma callback_unknown_ignored_witness :
  run (FileProcessor.handleCallbackQuery (Some 7%Z) "noop")
      (Inputs.test_env None None) Inputs.c1_w1 = (Ok tt, Inputs.c1_w1, [AnswerCb None]).
Proof.
  apply (callback_unknown_ignored _ _ 7 (SessionManager.new_session "demo.py" Inputs.demo_content));
    [lia | reflexivity | discriminate | reflexivity | reflexivity | reflexivity |].
  simpl. intros H. repeat (destruct H as [H|H]; [discriminate H|]). exact H.
Defined.

(** X13.  The "end session" button (any data starting with
    [end_session_]) and the "cancel" button delete the user's session,
    cancelling its expiry timer, reply once and answer the query. *)
Theorem callback_end_or_cancel_deletes (e : env) (w : world) (uid : Z) (s : session)
    (rest : string) :
  uid <> 0%Z -> sessions w !! uid = Some s ->
  run (FileProcessor.handleCallbackQuery (Some uid) ("end_session_" ++ rest)) e w =
    (Ok tt, SessionManager.deleteSession uid w, [Reply "会话已结束。" []; AnswerCb None]) /\
  run (FileProcessor.handleCallbackQuery (Some uid) "cancel_create") e w =
    (Ok tt, SessionManager.deleteSession uid w,
     [Reply "❌ 已取消创建任务，会话已结束。" []; AnswerCb None]).
Proof.
  intros Hu Hs. split.
  - cb_enter Hu Hs. destruct rest; reflexivity.
  - cb_enter Hu Hs. reflexivity.
Qed.

Lemma callback_end_or_cancel_deletes_witness :
  run (FileProcessor.handleCallbackQuery (Some 7%Z) ("end_session_" ++ "demo.py"))
      (Inputs.test_env None None) Inputs.w_modify =
    (Ok tt, SessionManager.deleteSession 7 Inputs.w_modify,
     [Reply "会话已结束。" []; AnswerCb None]).
Proof.
  apply (proj1 (callback_end_or_cancel_deletes (Inputs.test_env None None) Inputs.w_modify
                  7 Inputs.s_modify "demo.py"
                  ltac:(lia) ltac:(vm_compute; reflexivity))).
Defined.

(** X14.  "Upload only" (any data starting with [upload_only_]) uploads
    the file of the user's CURRENT session, whatever file name the button
    carries; when the upload succeeds the session is deleted (its timer
    cancelled) and the success message names that file. *)
Theorem callback_upload_only_success (e : env) (w : world) (uid : Z) (s : session)
    (rest : string) :
  uid <> 0%Z -> sessions w !! uid = Some s ->
  upload_result e (fileName s) (fileContent s) = None ->
  run (FileProcessor.handleCallbackQuery (Some uid) ("upload_only_" ++ rest)) e w =
    (Ok tt, SessionManager.deleteSession uid w,
     [Reply msg_uploading []; UploadFile (fileName s) (fileContent s);
      Reply (lines ["✅ 脚本上传成功！"; ""; "文件名：" ++ fileName s]) []; AnswerCb None]).
Proof.
  intros Hu Hs Hup. cb_enter Hu Hs.
  destruct rest; unfold FileProcessor.handleUploadOnly, try_catch, reply, emit, uploadFile,
    asks, mbind, M_bind; simpl; rewrite Hup; reflexivity.
Qed.

Lemma callback_upload_only_success_witness :
  run (FileProcessor.handleCallbackQuery (Some 7%Z) ("upload_only_" ++ "old.py"))
      (Inputs.test_env None None) Inputs.c1_w1 =
    (Ok tt, SessionManager.deleteSession 7 Inputs.c1_w1,
     [Reply msg_uploading []; UploadFile "demo.py" Inputs.demo_content;
      Reply (lines ["✅ 脚本上传成功！"; ""; "文件名：" ++ "demo.py"]) []; AnswerCb None]).
Proof.
  apply (callback_upload_only_success _ _ 7
           (SessionManager.new_session "demo.py" Inputs.demo_content) "old.py");
    [lia | reflexivity | reflexivity].
Defined.

(** X15.  "Use defaults" ([modify_params_no]), in whatever stage the
    session is: without default parameters it only replies with an error
    and changes nothing; otherwise, when both backend calls succeed, it
    uploads the session's file, registers the job with the default name,
    command and schedule, deletes the session and reports them. *)
Theorem callback_use_defaults (e : env) (w : world) (uid : Z) (s : session) :
  uid <> 0%Z -> sessions w !! uid = Some s ->
  (defaultParams s = None ->
     run (FileProcessor.handleCallbackQuery (Some uid) "modify_params_no") e w =
       (Ok tt, w, [Reply "❌ 默认参数不存在" []; AnswerCb None])) /\
  (forall p, defaultParams s = Some p ->
     upload_result e (fileName s) (fileContent s) = None ->
     cron_result e (JStr (name p)) (JStr (command p)) (JStr (schedule p)) = None ->
     run (FileProcessor.handleCallbackQuery (Some uid) "modify_params_no") e w =
       (Ok tt, SessionManager.deleteSession uid w,
        [Reply msg_uploading []; UploadFile (fileName s) (fileContent s);
         Reply msg_creating [];
         CreateCronJob (JStr (name p)) (JStr (command p)) (JStr (schedule p));
         Reply (FileProcessor.task_created (name p) (command p) (schedule p)) [];
         AnswerCb None])).
Proof.
  intros Hu Hs. split.
  - intros Hp. cb_enter Hu Hs.
    unfold FileProcessor.handleModifyParamsNo, try_catch. rewrite Hp. reflexivity.
  - intros p Hp Hup Hcr. cb_enter Hu Hs.
    unfold FileProcessor.handleModifyParamsNo, try_catch. rewrite Hp.
    unfold reply, emit, uploadFile, createCronJob, asks, mbind, M_bind. simpl.
    rewrite Hup. simpl. rewrite Hcr. reflexivity.
Qed.

Lemma callback_use_defaults_witness :
  run (FileProcessor.handleCallbackQuery (Some 7%Z) "modify_params_no")
      (Inputs.test_env None None) Inputs.c1_w1 =
    (Ok tt, SessionManager.deleteSession 7 Inputs.c1_w1,
     [Reply msg_uploading []; UploadFile "demo.py" Inputs.demo_content;
      Reply msg_creating [];
      CreateCronJob (JStr "demo") (JStr "task demo.py") (JStr "0 0 * * *");
      Reply (FileProcessor.task_created "demo" "task demo.py" "0 0 * * *") [];
      AnswerCb None]).
Proof.
  apply (proj2 (callback_use_defaults (Inputs.test_env None None) Inputs.c1_w1 7
                  (SessionManager.new_session "demo.py" Inputs.demo_content)
                  ltac:(lia) eq_refl) Inputs.demo_defaults);
    vm_compute; reflexivity.
Defined.

(** X16.  "Confirm" with candidate parameters whose [name], [command] and
    [schedule] are truthy, when both backend calls succeed: the session's
    file is uploaded, the job is registered with exactly those three
    values, the session is deleted (its timer cancelled) and the reply
    reports the values as [String(...)] gives them. *)
Theorem callback_confirm_success (e : env) (w : world) (uid : Z) (s : session)
    (kvs : list (string * jval)) :
  uid <> 0%Z -> sessions w !! uid = Some s ->
  modifiedParams s = Some (JObj kvs) ->
  truthy (assoc_lookup "name" kvs) = true ->
  truthy (assoc_lookup "command" kvs) = true ->
  truthy (assoc_lookup "schedule" kvs) = true ->
  upload_result e (fileName s) (fileContent s) = None ->
  cron_result e (assoc_lookup "name" kvs) (assoc_lookup "command" kvs)
                (assoc_lookup "schedule" kvs) = None ->
  run (FileProcessor.handleCallbackQuery (Some uid) "confirm_params") e w =
    (Ok tt, SessionManager.deleteSession uid w,
     [Reply msg_uploading []; UploadFile (fileName s) (fileContent s);
      Reply msg_creating [];
      CreateCronJob (assoc_lookup "name" kvs) (assoc_lookup "command" kvs)
                    (assoc_lookup "schedule" kvs);
      Reply (FileProcessor.task_created (js_String e (assoc_lookup "name" kvs))
               (js_String e (assoc_lookup "command" kvs))
               (js_String e (assoc_lookup "schedule" kvs))) [];
      AnswerCb None]).
Proof.
  intros Hu Hs Hm Hn Hc Hsc Hup Hcr. cb_enter Hu Hs.
  unfold FileProcessor.handleConfirmParams, FileProcessor.modified_val, try_catch.
  rewrite Hm. cbn -[missing_field]. unfold mbind, M_bind.
  rewrite HandlerFacts.missing_field_obj, Hn, Hc, Hsc. simpl.
  unfold reply, emit, uploadFile, createCronJob, asks, mbind, M_bind. simpl.
  rewrite Hup. simpl. rewrite Hcr. reflexivity.
Qed.

Lemma callback_confirm_success_witness :
  run (FileProcessor.handleCallbackQuery (Some 7%Z) "confirm_params")
      (Inputs.test_env None None) Inputs.w_confirm =
    (Ok tt, SessionManager.deleteSession 7 Inputs.w_confirm,
     [Reply msg_uploading []; UploadFile "demo.py" Inputs.demo_content;
      Reply msg_creating [];
      CreateCronJob (JStr "demo") (JStr "task demo.py") (JStr "5 4 * * *");
      Reply (FileProcessor.task_created "demo" "task demo.py" "5 4 * * *") [];
      AnswerCb None]).
Proof.
  rewrite (callback_confirm_success (Inputs.test_env None None) Inputs.w_confirm 7
             Inputs.s_confirm
             [("name", JStr "demo"); ("command", JStr "task demo.py");
              ("schedule", JStr "5 4 * * *")]);
    first [lia | vm_compute; reflexivity].
Defined.

(** X17.  "Create task" (any data starting with [create_task_]), in any
    stage: the session's stage becomes [create_task] and nothing else
    changes (no timer is armed or cleared); the reply shows the escaped
    default parameters with the two buttons "modify" / "use defaults". *)
Theorem callback_create_task (e : env) (w : world) (uid : Z) (s : session) (rest : string) :
  uid <> 0%Z -> sessions w !! uid = Some s ->
  run (FileProcessor.handleCallbackQuery (Some uid) ("create_task_" ++ rest)) e w =
    (Ok tt,
     mkWorld (<[uid := mkSession (fileName s) (fileContent s) create_task (defaultParams s)
                                 (modifiedParams s) (timeoutId s)]> (sessions w))
             (timers w) (next_timer w),
     [Reply (lines ["是否修改默认参数？"; ""; "默认参数如下："; "";
                    code_block (json_stringify e (opt_params_json (defaultParams s)))])
            ["modify_params_yes"; "modify_params_no"];
      AnswerCb None]).
Proof.
  intros Hu Hs. cb_enter Hu Hs.
  destruct rest; unfold FileProcessor.handleCreateTask, FileProcessor.updateSession_m, modify,
    SessionManager.updateSession; simpl; rewrite Hs; reflexivity.
Qed.

Lemma callback_create_task_witness :
  run (FileProcessor.handleCallbackQuery (Some 7%Z) ("create_task_" ++ "demo.py"))
      (Inputs.test_env None None) Inputs.c1_w1 =
    (Ok tt,
     mkWorld (<[7%Z := mkSession "demo.py" Inputs.demo_content create_task
                                 (Some Inputs.demo_defaults) None None]>
              (sessions Inputs.c1_w1))
             (timers Inputs.c1_w1) (next_timer Inputs.c1_w1),
     [Reply (lines ["是否修改默认参数？"; ""; "默认参数如下："; ""; code_block "{...}"])
            ["modify_params_yes"; "modify_params_no"];
      AnswerCb None]).
Proof.
  rewrite (callback_create_task (Inputs.test_env None None) Inputs.c1_w1 7
             Inputs.s_uploaded "demo.py");
    first [lia | vm_compute; reflexivity].
Defined.

(** X18.  "Modify" ([modify_params_yes]), in any stage: the session
    moves to [modify_params], its previous timer (if any) is cleared and
    one 120000 ms timer with the timeout notice is armed under a fresh
    handle and recorded in the session; one reply, then the answer. *)
Theorem callback_modify_arms_timer (e : env) (w : world) (uid : Z) (s : session) :
  uid <> 0%Z -> sessions w !! uid = Some s ->
  exists msg,
  run (FileProcessor.handleCallbackQuery (Some uid) "modify_params_yes") e w =
    (Ok tt,
     mkWorld (<[uid := mkSession (fileName s) (fileContent s) modify_params (defaultParams s)
                                 (modifiedParams s) (Some (next_timer w))]> (sessions w))
             (<[next_timer w := mkTimer uid 120000 msg_timeout]> (cleared s w))
             (S (next_timer w)),
     [Reply msg []; AnswerCb None]).
Proof.
  intros Hu Hs. eexists. cb_enter Hu Hs.
  unfold FileProcessor.handleModifyParamsYes, FileProcessor.updateSession_m,
    FileProcessor.setSessionTimeout_m, modify, SessionManager.updateSession; simpl.
  rewrite Hs. simpl.
  rewrite (SessionFacts.setSessionTimeout_present _ uid 120000 msg_timeout
             (mkSession (fileName s) (fileContent s) modify_params (defaultParams s)
                        (modifiedParams s) (timeoutId s)))
    by (simpl; apply lookup_insert_eq).
  unfold cleared. simpl. rewrite insert_insert_eq. reflexivity.
Qed.

Lemma callback_modify_arms_timer_witness :
  exists msg,
  run (FileProcessor.handleCallbackQuery (Some 7%Z) "modify_params_yes")
      (Inputs.test_env None None) Inputs.c1_w1 =
    (Ok tt,
     mkWorld (<[7%Z := mkSession "demo.py" Inputs.demo_content modify_params
                                 (Some Inputs.demo_defaults) None (Some 0%nat)]>
              (sessions Inputs.c1_w1))
             (<[0%nat := mkTimer 7 120000 msg_timeout]> (timers Inputs.c1_w1)) 1,
     [Reply msg []; AnswerCb None]).
Proof.
  destruct (callback_modify_arms_timer (Inputs.test_env None None) Inputs.c1_w1 7
              Inputs.s_uploaded ltac:(lia) ltac:(vm_compute; reflexivity)) as [msg Hm].
  exists msg. rewrite Hm. vm_compute. reflexivity.
Defined.

(** X19.  A text message is handed on unchanged to ordinary command
    processing, with no reply from the parameter handler and no change of
    the world, whenever the sender has no usable id, has no session, has a
    session not in stage [modify_params], sent no or empty text, or sent a
    text that after trimming does not start with [{] and end with [}]. *)
Theorem command_not_params_falls_through (e : env) (w : world) (from : option Z)
    (text : option string) :
  (FileProcessor.user_id from = None \/
   exists uid, FileProcessor.user_id from = Some uid /\
     (sessions w !! uid = None \/
      exists s, sessions w !! uid = Some s /\
        (stage_of s <> modify_params \/ text = None \/ text = Some "" \/
         exists t, text = Some t /\
           (Str.startsWith (Str.js_trim t) "{" = false \/
            Str.endsWith_char (Str.js_trim t) "}" = false)))) ->
  run (FileProcessor.handleJsonParams from text) e w = (Ok false, w, []) /\
  run (handleCommand from text) e w =
    (Ok tt, w, [ProcessCommand (match text with Some t => t | None => "" end)]).
Proof.
  intros H.
  assert (Hj : run (FileProcessor.handleJsonParams from text) e w = (Ok false, w, [])).
  { unfold run, FileProcessor.handleJsonParams, try_catch.
    destruct H as [Hu | (uid & Hu & [Hs | (s & Hs & Hc)])]; rewrite Hu;
      [reflexivity| |];
      unfold FileProcessor.getSession_m, gets, mbind, M_bind, SessionManager.getSession;
      rewrite Hs; [reflexivity|].
    destruct (stage_eqb (stage_of s) modify_params) eqn:Est; [|reflexivity].
    destruct Hc as [Hst | [-> | [-> | (t & -> & Hb)]]]; [| reflexivity | reflexivity |].
    - exfalso. apply Hst. destruct (stage_of s); try discriminate Est; reflexivity.
    - simpl. destruct t as [|c t]; [reflexivity|].
      destruct Hb as [Hb|Hb]; rewrite Hb; [reflexivity|].
      rewrite orb_true_r. reflexivity. }
  split; [exact Hj|].
  unfold run, handleCommand, mbind, M_bind. unfold run in Hj. rewrite Hj. reflexivity.
Qed.

Lemma command_not_params_falls_through_witness :
  run (handleCommand (Some 7%Z) (Some "/help")) (Inputs.test_env None None) Inputs.c1_w1 =
    (Ok tt, Inputs.c1_w1, [ProcessCommand "/help"]).
Proof.
  refine (proj2 (command_not_params_falls_through (Inputs.test_env None None) Inputs.c1_w1
                   (Some 7%Z) (Some "/help") _)).
  right. exists 7%Z. split; [reflexivity|]. right.
  exists Inputs.s_uploaded. split; [vm_compute; reflexivity|].
  left. discriminate.
Defined.

Module UploadFacts.
Import FileUpload.

Lemma split_no_dot (x : string) :
  Str.has_char "." x = false -> Str.split_on "." x = [x].
Proof.
  induction x as [|c r IH]; [reflexivity|]. simpl. intros H.
  apply orb_false_iff in H as [Hc Hr]. rewrite Hc, (IH Hr). reflexivity.
Qed.

Lemma split_last_dot (pre ext : string) :
  Str.has_char "." ext = false ->
  exists l, Str.split_on "." (pre ++ String "." ext) = (l ++ [ext])%list /\ l <> [].
Proof.
  intros He. induction pre as [|c r IH].
  - exists [""]. split; [|discriminate]. simpl. rewrite (split_no_dot ext He). reflexivity.
  - destruct IH as (l & Hl & Hne). rewrite CronFacts.str_app_cons. simpl. rewrite Hl.
    destruct (Ascii.eqb c ".").
    + exists ("" :: l). split; [reflexivity|discriminate].
    + destruct l as [|h t]; [congruence|]. exists (String c h :: t).
      split; [reflexivity|discriminate].
Qed.

Lemma pop_last (l : list string) (x : string) : pop (l ++ [x])%list = Some x.
Proof.
  induction l as [|a l IH]; [reflexivity|].
  change ((a :: l) ++ [x])%list with (a :: (l ++ [x]))%list.
  destruct (l ++ [x])%list eqn:E; [destruct l; discriminate|]. exact IH.
Qed.

Lemma unsupported_some (x : string) :
  unsupported (Some x) = false <-> In x supportedExtensions.
Proof.
  destruct x as [|c r].
  - simpl. split; [discriminate|]. intros H. repeat (destruct H as [H|H]; [discriminate H|]).
    contradiction.
  - unfold unsupported. rewrite negb_false_iff, existsb_exists. split.
    + intros (y & Hy & Heq). apply String.eqb_eq in Heq. rewrite Heq. exact Hy.
    + intros H. exists (String c r). split; [exact H|]. apply String.eqb_refl.
Qed.

End UploadFacts.

(** X20.  The extension that [handleFileUpload] tests is the text after
    the LAST ['.'] of the file name, in lower case, so the test ignores
    case ([a.PY] passes) and looks only at the last part ([a.py.txt]
    fails).  A name without any ['.'] is tested as a whole: a file named
    [py] or [JS] passes the test. *)
Theorem fileExtension_last_segment (pre ext f : string) :
  (Str.has_char "." ext = false ->
     FileUpload.fileExtension (pre ++ String "." ext) = Some (FileUpload.toLowerCase ext) /\
     (FileUpload.unsupported (FileUpload.fileExtension (pre ++ String "." ext)) = false <->
      In (FileUpload.toLowerCase ext) FileUpload.supportedExtensions)) /\
  (Str.has_char "." f = false ->
     FileUpload.fileExtension f = Some (FileUpload.toLowerCase f) /\
     (FileUpload.unsupported (FileUpload.fileExtension f) = false <->
      In (FileUpload.toLowerCase f) FileUpload.supportedExtensions)).
Proof.
  split.
  - intros He. destruct (UploadFacts.split_last_dot pre ext He) as (l & Hl & _).
    assert (H : FileUpload.fileExtension (pre ++ String "." ext) =
                Some (FileUpload.toLowerCase ext)).
    { unfold FileUpload.fileExtension. rewrite Hl, UploadFacts.pop_last. reflexivity. }
    split; [exact H|]. rewrite H. apply UploadFacts.unsupported_some.
  - intros Hf.
    assert (H : FileUpload.fileExtension f = Some (FileUpload.toLowerCase f)).
    { unfold FileUpload.fileExtension. rewrite (UploadFacts.split_no_dot f Hf). reflexivity. }
    split; [exact H|]. rewrite H. apply UploadFacts.unsupported_some.
Qed.

Lemma fileExtension_last_segment_witness :
  FileUpload.fileExtension ("demo" ++ String "." "PY") = Some "py" /\
  FileUpload.fileExtension "JS" = Some "js" /\
  FileUpload.unsupported (FileUpload.fileExtension "JS") = false.
Proof.
  destruct (fileExtension_last_segment "demo" "PY" "JS") as [H1 H2].
  split; [exact (proj1 (H1 eq_refl))|].
  split; [exact (proj1 (H2 eq_refl))|].
  apply (proj2 (H2 eq_refl)). simpl. tauto.
Defined.

(** X21.  [handleFileUpload] stops with one reply, downloads nothing and
    changes nothing when there is no message or no document, when the
    document has no (or an empty) file name, or when the extension test
    fails. *)
Theorem fileUpload_rejects_input (e : env) (w : world) (cfg : FileUpload.tg_config)
    (net : FileUpload.tg_net) (from : option Z) (fid : string) :
  run (FileUpload.handleFileUpload cfg net from None) e w =
    (Ok tt, w, [Reply FileUpload.msg_no_file []]) /\
  run (FileUpload.handleFileUpload cfg net from (Some None)) e w =
    (Ok tt, w, [Reply FileUpload.msg_no_file []]) /\
  run (FileUpload.handleFileUpload cfg net from
         (Some (Some (FileUpload.mkDocument None fid)))) e w =
    (Ok tt, w, [Reply FileUpload.msg_no_name []]) /\
  run (FileUpload.handleFileUpload cfg net from
         (Some (Some (FileUpload.mkDocument (Some "") fid)))) e w =
    (Ok tt, w, [Reply FileUpload.msg_no_name []]) /\
  (forall f, f <> "" -> FileUpload.unsupported (FileUpload.fileExtension f) = true ->
     run (FileUpload.handleFileUpload cfg net from
            (Some (Some (FileUpload.mkDocument (Some f) fid)))) e w =
       (Ok tt, w, [Reply FileUpload.msg_unsupported []])).
Proof.
  repeat split; try reflexivity.
  intros f Hf Hu. destruct f as [|c r]; [congruence|].
  unfold run, FileUpload.handleFileUpload, try_catch. simpl. rewrite Hu. reflexivity.
Qed.

Lemma fileUpload_rejects_input_witness :
  run (FileUpload.handleFileUpload (FileUpload.mkTgConfig None None)
         (FileUpload.mkTgNet (fun _ => Throw "offline") (fun _ => Throw "offline")) (Some 7%Z)
         (Some (Some (FileUpload.mkDocument (Some "notes.txt") "f1"))))
      (Inputs.test_env None None) Inputs.c1_w1 =
    (Ok tt, Inputs.c1_w1, [Reply FileUpload.msg_unsupported []]).
Proof.
  apply (proj2 (proj2 (proj2 (proj2 (fileUpload_rejects_input (Inputs.test_env None None)
           Inputs.c1_w1 (FileUpload.mkTgConfig None None)
           (FileUpload.mkTgNet (fun _ => Throw "offline") (fun _ => Throw "offline"))
           (Some 7%Z) "f1"))))); [discriminate | vm_compute; reflexivity].
Defined.

(** X22.  A supported file that downloads: [getFile] gives the path, the
    content is fetched from [<root>/file/bot<token>/<path>] (root
    [TG_API_ROOT] or [https://api.telegram.org]), and for a sender with an
    id the session is created by the [createSession] of
    [session_manager.ts] with that content (so with the default schedule
    ["0 0 * * *"], replacing any previous session of the user); two
    replies: the download notice, then the success message with the three buttons
    [create_task_<name>], [upload_only_<name>], [end_session_<name>]. *)
Theorem fileUpload_success (e : env) (w : world) (cfg : FileUpload.tg_config)
    (net : FileUpload.tg_net) (from : option Z) (f fid path content : string) (uid : Z) :
  f <> "" -> FileUpload.unsupported (FileUpload.fileExtension f) = false ->
  FileUpload.getFile net fid = Ok path ->
  FileUpload.http_get net (FileUpload.fileUrl cfg path) = Ok content ->
  FileProcessor.user_id from = Some uid ->
  run (FileUpload.handleFileUpload cfg net from
         (Some (Some (FileUpload.mkDocument (Some f) fid)))) e w =
    (Ok tt, snd (SessionManagerTs.createSession uid f content w),
     [Reply FileUpload.msg_downloading [];
      Reply (FileUpload.msg_downloaded f) (FileUpload.upload_buttons f)]).
Proof.
  intros Hf Hs Hg Hh Hu. destruct f as [|c r]; [congruence|].
  unfold run, FileUpload.handleFileUpload, try_catch. simpl. rewrite Hs. simpl.
  unfold FileUpload.await, mbind, M_bind, reply, emit. simpl. rewrite Hg, Hh, Hu. reflexivity.
Qed.

(** X23.  A supported file whose download fails ([getFile] or the HTTP
    request rejects with [err]): after the download notice the user gets
    ["❌ 文件下载失败：" ++ err] and no session is created.  When the
    sender has no usable id, the file is still downloaded, then the
    reply is "no user id" and no session is created. *)
Theorem fileUpload_failures (e : env) (w : world) (cfg : FileUpload.tg_config)
    (net : FileUpload.tg_net) (from : option Z) (f fid : string) :
  f <> "" -> FileUpload.unsupported (FileUpload.fileExtension f) = false ->
  let run_it := run (FileUpload.handleFileUpload cfg net from
                       (Some (Some (FileUpload.mkDocument (Some f) fid)))) e w in
  (forall err, FileUpload.getFile net fid = Throw err ->
     run_it = (Ok tt, w, [Reply FileUpload.msg_downloading [];
                          Reply ("❌ 文件下载失败：" ++ err) []])) /\
  (forall path err, FileUpload.getFile net fid = Ok path ->
     FileUpload.http_get net (FileUpload.fileUrl cfg path) = Throw err ->
     run_it = (Ok tt, w, [Reply FileUpload.msg_downloading [];
                          Reply ("❌ 文件下载失败：" ++ err) []])) /\
  (forall path content, FileUpload.getFile net fid = Ok path ->
     FileUpload.http_get net (FileUpload.fileUrl cfg path) = Ok content ->
     FileProcessor.user_id from = None ->
     run_it = (Ok tt, w, [Reply FileUpload.msg_downloading [];
                          Reply FileUpload.msg_no_user []])).
Proof.
  intros Hf Hs run_it. subst run_it. destruct f as [|c r]; [congruence|].
  unfold run, FileUpload.handleFileUpload, try_catch. simpl. rewrite Hs. simpl.
  unfold FileUpload.await, mbind, M_bind, reply, emit. simpl.
  split; [|split].
  - intros err Hg. rewrite Hg. reflexivity.
  - intros path err Hg Hh. rewrite Hg, Hh. reflexivity.
  - intros path content Hg Hh Hu. rewrite Hg, Hh, Hu. reflexivity.
Qed.

Lemma fileUpload_failures_witness :
  run (FileUpload.handleFileUpload (FileUpload.mkTgConfig None None)
         (FileUpload.mkTgNet (fun _ => Throw "ETIMEDOUT") (fun _ => Throw "ETIMEDOUT"))
         (Some 7%Z) (Some (Some (FileUpload.mkDocument (Some "demo.py") "f1"))))
      (Inputs.test_env None None) Inputs.c1_w1 =
    (Ok tt, Inputs.c1_w1, [Reply FileUpload.msg_downloading [];
                           Reply ("❌ 文件下载失败：" ++ "ETIMEDOUT") []]).
Proof.
  apply (proj1 (fileUpload_failures (Inputs.test_env None None) Inputs.c1_w1
           (FileUpload.mkTgConfig None None)
           (FileUpload.mkTgNet (fun _ => Throw "ETIMEDOUT") (fun _ => Throw "ETIMEDOUT"))
           (Some 7%Z) "demo.py" "f1" ltac:(discriminate) ltac:(vm_compute; reflexivity))).
  reflexivity.
Defined.

Lemma fileUpload_success_witness :
  run (FileUpload.handleFileUpload (FileUpload.mkTgConfig (Some "T") None)
         (FileUpload.mkTgNet (fun _ => Ok "documents/file_1.py")
            (fun u => if String.eqb u "https://api.telegram.org/file/botT/documents/file_1.py"
                      then Ok Inputs.demo_content else Throw "404"))
         (Some 7%Z) (Some (Some (FileUpload.mkDocument (Some "demo.py") "f1"))))
      (Inputs.test_env None None) (mkWorld ∅ ∅ 0) =
    (Ok tt, Inputs.c1_w1,
     [Reply FileUpload.msg_downloading [];
      Reply (FileUpload.msg_downloaded "demo.py") (FileUpload.upload_buttons "demo.py")]).
Proof.
  apply (fileUpload_success (Inputs.test_env None None) (mkWorld ∅ ∅ 0)
           (FileUpload.mkTgConfig (Some "T") None)
           (FileUpload.mkTgNet (fun _ => Ok "documents/file_1.py")
              (fun u => if String.eqb u "https://api.telegram.org/file/botT/documents/file_1.py"
                        then Ok Inputs.demo_content else Throw "404"))
           (Some 7%Z) "demo.py" "f1" "documents/file_1.py" Inputs.demo_content 7);
    first [discriminate | vm_compute; reflexivity].
Defined.

Lemma escapeHtml_injective_witness :
  escapeHtml "a<b" = escapeHtml "a<b" /\ "a<b" = "a<b".
Proof. split; [reflexivity | apply (escapeHtml_injective "a<b" "a<b"); reflexivity]. Defined.

Module ReplyFacts.
Import Reply16.

Lemma trim_start_length (s : u16) : (length (trim_start s) <= length s)%nat.
Proof. induction s as [|u r IH]; simpl; [lia|]. destruct (is_js_ws u); simpl; lia. Qed.

Lemma trim_length (s : u16) : (length (trim s) <= length s)%nat.
Proof.
  unfold trim. rewrite length_rev. etransitivity; [apply trim_start_length|].
  rewrite length_rev. apply trim_start_length.
Qed.

Lemma send_loop_flush (buf part : u16) (rest : list u16) :
  send_loop buf (part :: rest) =
  if Z.leb 4096 (Z.of_nat (length buf) + Z.of_nat (length part))
  then let '(s, f) := send_loop (line part) rest in (buf :: s, f)
  else send_loop (buf ++ line part)%list rest.
Proof.
  unfold line. simpl.
  destruct (Z.leb 4096 (Z.of_nat (length buf) + Z.of_nat (length part))).
  - simpl. destruct (send_loop (trim part ++ [10%Z])%list rest). reflexivity.
  - destruct (send_loop (buf ++ trim part ++ [10%Z])%list rest). reflexivity.
Qed.

Lemma send_loop_bounded (parts : list u16) (buf : u16) :
  Forall (fun p => (length p < 4096)%nat) parts -> (length buf <= 4096)%nat ->
  Forall (fun m => (length m <= 4096)%nat) (fst (send_loop buf parts)) /\
  (length (snd (send_loop buf parts)) <= 4096)%nat.
Proof.
  revert buf. induction parts as [|p rest IH]; intros buf Hp Hb; [simpl; auto|].
  pose proof (Forall_inv Hp) as Hp0; cbv beta in Hp0. pose proof (Forall_inv_tail Hp) as Hr.
  rewrite send_loop_flush. pose proof (trim_length p) as Ht.
  destruct (Z.leb_spec 4096 (Z.of_nat (length buf) + Z.of_nat (length p))) as [Hle|Hlt].
  - destruct (IH (line p) Hr) as [H1 H2].
    { unfold line. rewrite length_app. simpl. lia. }
    destruct (send_loop (line p) rest) as [s f]. simpl in *. split; [constructor|]; auto.
  - apply IH; [exact Hr|]. unfold line. rewrite !length_app. simpl. lia.
Qed.

Lemma send_loop_concat (parts : list u16) (buf : u16) :
  (concat (fst (send_loop buf parts)) ++ snd (send_loop buf parts))%list =
  (buf ++ concat (map line parts))%list.
Proof.
  revert buf. induction parts as [|p rest IH]; intros buf; [simpl; rewrite app_nil_r; reflexivity|].
  rewrite send_loop_flush.
  destruct (Z.leb 4096 (Z.of_nat (length buf) + Z.of_nat (length p))).
  - specialize (IH (line p)). destruct (send_loop (line p) rest) as [s f]. simpl in *.
    rewrite <- app_assoc, IH. reflexivity.
  - rewrite IH. simpl. rewrite app_assoc. reflexivity.
Qed.

Lemma line_nonempty (p : u16) : line p <> [].
Proof. unfold line. destruct (trim p); discriminate. Qed.

Lemma send_loop_nonempty (parts : list u16) (buf : u16) :
  buf <> [] ->
  Forall (fun m => m <> []) (fst (send_loop buf parts)) /\ snd (send_loop buf parts) <> [].
Proof.
  revert buf. induction parts as [|p rest IH]; intros buf Hb; [simpl; auto|].
  rewrite send_loop_flush.
  destruct (Z.leb 4096 (Z.of_nat (length buf) + Z.of_nat (length p))).
  - destruct (IH (line p) (line_nonempty p)) as [H1 H2].
    destruct (send_loop (line p) rest) as [s f]. simpl in *. auto.
  - apply IH. destruct buf; [congruence|discriminate].
Qed.

Lemma sendReply_unfold (pi : u16 -> u16) (m : u16) :
  sendReply pi m =
  (fst (send_loop [] (stringParts (pi (trim m)))) ++
   (if nonempty (snd (send_loop [] (stringParts (pi (trim m)))))
    then [snd (send_loop [] (stringParts (pi (trim m))))] else []))%list.
Proof. unfold sendReply. destruct (send_loop [] (stringParts (pi (trim m)))). reflexivity. Qed.

End ReplyFacts.

(** X24.  When every non-empty line of the HTML of the message is shorter
    than 4096 code units, no message [sendReply] sends is longer than
    4096 code units (the Telegram limit). *)
Theorem sendReply_within_limit (parseInline : Reply16.u16 -> Reply16.u16) (message : Reply16.u16) :
  Forall (fun p => (length p < 4096)%nat)
         (Reply16.stringParts (parseInline (Reply16.trim message))) ->
  Forall (fun m => (length m <= 4096)%nat) (Reply16.sendReply parseInline message).
Proof.
  intros Hp. rewrite ReplyFacts.sendReply_unfold.
  destruct (ReplyFacts.send_loop_bounded _ [] Hp ltac:(simpl; lia)) as [H1 H2].
  apply Forall_app. split; [exact H1|].
  destruct (Reply16.nonempty _); auto.
Qed.

Lemma sendReply_within_limit_witness :
  Forall (fun p => (length p < 4096)%nat)
         (Reply16.stringParts (id (Reply16.trim [97%Z; 10%Z; 32%Z; 98%Z]))) /\
  Forall (fun m => (length m <= 4096)%nat) (Reply16.sendReply id [97%Z; 10%Z; 32%Z; 98%Z]).
Proof.
  assert (H : Forall (fun p => (length p < 4096)%nat)
         (Reply16.stringParts (id (Reply16.trim [97%Z; 10%Z; 32%Z; 98%Z])))).
  { vm_compute. repeat (apply List.Forall_cons; [lia|]). apply List.Forall_nil. }
  split; [exact H | exact (sendReply_within_limit id _ H)].
Defined.

(** X25.  [sendReply] loses and repeats nothing: the messages it sends,
    put together, are the non-empty lines of the HTML of the message,
    each trimmed and followed by a newline, in order. *)
Theorem sendReply_concat (parseInline : Reply16.u16 -> Reply16.u16) (message : Reply16.u16) :
  concat (Reply16.sendReply parseInline message) =
  concat (map (fun p => (Reply16.trim p ++ [10%Z])%list)
              (Reply16.stringParts (parseInline (Reply16.trim message)))).
Proof.
  rewrite ReplyFacts.sendReply_unfold, concat_app.
  pose proof (ReplyFacts.send_loop_concat (Reply16.stringParts (parseInline (Reply16.trim message))) [])
    as H.
  destruct (Reply16.send_loop [] _) as [s f]. simpl in *.
  destruct f; simpl; rewrite ?app_nil_r in *; exact H.
Qed.

(** X26.  [sendReply] sends an empty message only as its first message,
    and exactly when the first non-empty line of the HTML is 4096 code
    units or longer (the buffer, still empty, is flushed before it);
    every other message it sends has text. *)
Theorem sendReply_empty_message (parseInline : Reply16.u16 -> Reply16.u16) (message : Reply16.u16) :
  let parts := Reply16.stringParts (parseInline (Reply16.trim message)) in
  ((exists p rest, parts = p :: rest /\ (4096 <= length p)%nat) ->
     exists out, Reply16.sendReply parseInline message = [] :: out /\
                 Forall (fun m => m <> []) out) /\
  (~ (exists p rest, parts = p :: rest /\ (4096 <= length p)%nat) ->
     Forall (fun m => m <> []) (Reply16.sendReply parseInline message)).
Proof.
  intros parts. unfold Reply16.sendReply. fold parts.
  destruct parts as [|p rest] eqn:Ep.
  - split; [intros (p & rest & H & _); discriminate|]. intros _. simpl. constructor.
  - rewrite ReplyFacts.send_loop_flush. simpl length.
    destruct (ReplyFacts.send_loop_nonempty rest (Reply16.line p) (ReplyFacts.line_nonempty p))
      as [H1 H2].
    assert (Hfin : forall s f, Forall (fun m => m <> []) s -> f <> [] ->
              Forall (fun m => m <> []) (s ++ (if Reply16.nonempty f then [f] else []))%list).
    { intros s f Hs Hf. apply Forall_app. split; [exact Hs|]. destruct f; [congruence|].
      simpl. auto. }
    destruct (Z.leb_spec 4096 (Z.of_nat 0 + Z.of_nat (length p))) as [Hle|Hlt].
    + destruct (Reply16.send_loop (Reply16.line p) rest) as [s f] eqn:E. simpl in *.
      split.
      * intros _. exists (s ++ (if Reply16.nonempty f then [f] else []))%list.
        split; [reflexivity|]. apply Hfin; assumption.
      * intros Hn. exfalso. apply Hn. exists p, rest. split; [reflexivity|lia].
    + rewrite app_nil_l.
      destruct (Reply16.send_loop (Reply16.line p) rest) as [s f] eqn:E. simpl in *.
      split.
      * intros (p' & rest' & Heq & Hl). injection Heq as <- <-. lia.
      * intros _. apply Hfin; assumption.
Qed.
